(** * A shallow embedding of the chatbot and the search agent

    The two programs, [simple_chatbot.py] and [simple_agent.py], are thin
    orchestration loops around three collaborators: the terminal
    ([input]/[print]), the chat-completion service and the web-search
    backend.  The embedding keeps the program text (records for the objects,
    a state-and-exception monad for the methods, a fuelled loop for [run])
    and takes the collaborators as an interface, [Env], whose answers are
    arbitrary. *)

From Stdlib Require Import Ascii.
From stdpp Require Import gmap strings list.

(** ** Python values used by the programs *)

(** The line feed of the Python literals ["\n"]. *)
Definition LF : string := String (ascii_of_nat 10) EmptyString.

(** Truth value of a [str]: only the empty string is falsy. *)
Definition str_truthy (s : string) : bool := negb (bool_decide (s = "")).

(** Truth value of a [str | None] and of a [list | None]. *)
Definition opt_str_truthy (o : option string) : bool :=
  match o with
  | Some s => str_truthy s
  | None => false
  end.

(** [content or ""] *)
Definition or_empty (o : option string) : string :=
  match o with
  | Some s => if str_truthy s then s else ""
  | None => ""
  end.

Definition opt_list_truthy {A : Type} (o : option (list A)) : bool :=
  match o with
  | Some (_ :: _) => true
  | _ => false
  end.

(** The elements a [for] loop walks through when the condition above held. *)
Definition opt_list_items {A : Type} (o : option (list A)) : list A :=
  match o with
  | Some l => l
  | None => []
  end.

(** What [json.loads] can produce.  Numbers keep their literal. *)
#[warnings="-register-all"]
Inductive json : Type :=
  | JNull
  | JBool (b : bool)
  | JNumber (lit : string)
  | JString (s : string)
  | JArray (items : list json)
  | JObject (members : gmap string json).

(** The exceptions the two programs can meet. *)
Inductive exception : Type :=
  | ValueError (msg : string)
  | JSONDecodeError (doc : string)
  | ValidationError (model : string)
  | UnboundLocalError (var : string)
  | KeyboardInterrupt.

Inductive outcome (A : Type) : Type :=
  | Return (a : A)
  | Raise (e : exception).
Arguments Return {A} a.
Arguments Raise {A} e.

(** ** Messages *)

(** An entry of [tool_calls] in an assistant message parameter:
    [{"id": .., "type": .., "function": {"name": .., "arguments": ..}}]. *)
Record FunctionParam : Type := {
  param_name : string;
  param_arguments : string
}.

Record ToolCallParam : Type := {
  param_id : string;
  param_type : string;
  param_function : FunctionParam
}.

(** [ChatCompletionMessageParam]: a dictionary with the key ["role"] and,
    depending on the role, some of ["content"], ["tool_calls"] and
    ["tool_call_id"].  An absent key is [None]. *)
Record ChatCompletionMessageParam : Type := {
  role : string;
  content : option string;
  tool_calls : option (list ToolCallParam);
  tool_call_id : option string
}.

(** The reply object [completion.choices[0].message]. *)
Record Function : Type := {
  fn_name : string;
  fn_arguments : string
}.

Record ChatCompletionMessageToolCall : Type := {
  call_id : string;
  call_type : string;
  call_function : Function
}.

Record ChatCompletionMessage : Type := {
  reply_content : option string;
  reply_tool_calls : option (list ChatCompletionMessageToolCall)
}.

(** One hit of the search backend: a dictionary with the keys ["title"],
    ["href"] and ["body"]. *)
Record SearchResult : Type := {
  title : string;
  href : string;
  body : string
}.

(** The three kinds of dictionaries the programs write themselves. *)
Definition user_message (user_query : string) : ChatCompletionMessageParam :=
  {| role := "user"; content := Some user_query;
     tool_calls := None; tool_call_id := None |}.

Definition system_message (system_prompt : string) : ChatCompletionMessageParam :=
  {| role := "system"; content := Some system_prompt;
     tool_calls := None; tool_call_id := None |}.

Definition tool_message (id tool_response : string) : ChatCompletionMessageParam :=
  {| role := "tool"; content := Some tool_response;
     tool_calls := None; tool_call_id := Some id |}.

(** ** State *)

Inductive State : Type :=
  | START
  | LLM_CALL
  | TOOL_RUN
  | END.

#[global] Instance State_eq_dec : EqDecision State.
Proof. solve_decision. Defined.

(** ** ToolCall *)

Record ToolCall : Type := {
  tc_id : string;
  tc_type : string;
  tc_function_name : string;
  tc_arguments : gmap string json
}.

(** The pydantic constructor: the three strings are taken as they are, and
    the field [arguments: dict[str, Any]] accepts a dictionary only. *)
Definition ToolCall_new (id type function_name : string) (arguments : json)
  : outcome ToolCall :=
  match arguments with
  | JObject d =>
      Return {| tc_id := id; tc_type := type;
                tc_function_name := function_name; tc_arguments := d |}
  | _ => Raise (ValidationError "ToolCall")
  end.

(** What [SimpleAgent._get_response] is declared to return:
    [str | list[ToolCall] | None]. *)
Inductive Response : Type :=
  | RStr (s : string)
  | RList (l : list ToolCall)
  | RNone.

(** ** The collaborators *)

(** The world outside the program.  [input] answers [None] when the user
    presses Ctrl-C at the prompt (Python raises [KeyboardInterrupt]);
    [chat_completions_create] takes the model name, the messages and the
    names of the tools offered, and answers with the message of the first
    choice; [ddgs_text] takes the keywords and the region.  [json_loads]
    answers [None] where Python raises [JSONDecodeError], and [dict_str] is
    the text Python prints for a dictionary. *)
Class Env : Type := {
  World : Type;
  input : string → World → option string * World;
  print : string → World → World;
  chat_completions_create :
    string → list ChatCompletionMessageParam → list string →
    World → ChatCompletionMessage * World;
  ddgs_text : json → string → World → list SearchResult * World;
  json_loads : string → option json;
  dict_str : gmap string json → string
}.

(** ** The monad of the methods

    A method reads and writes the object [S] it is called on and the world,
    and either returns or raises.  What was written before a [raise] stays
    written. *)
Definition M `{Env} (S A : Type) : Type := S → World → outcome A * S * World.

Section Monad.
Context `{Env} {S : Type}.

Definition ret {A : Type} (a : A) : M S A := λ self w, (Return a, self, w).

Definition raise {A : Type} (e : exception) : M S A :=
  λ self w, (Raise e, self, w).

Definition bind {A B : Type} (m : M S A) (k : A → M S B) : M S B :=
  λ self w,
    match m self w with
    | (Return a, self', w') => k a self' w'
    | (Raise e, self', w') => (Raise e, self', w')
    end.

Definition lift_outcome {A : Type} (o : outcome A) : M S A :=
  λ self w, (o, self, w).

Definition get {A : Type} (f : S → A) : M S A := λ self w, (Return (f self), self, w).

Definition modify (f : S → S) : M S unit := λ self w, (Return tt, f self, w).

Definition call_input (prompt : string) : M S string :=
  λ self w,
    match input prompt w with
    | (Some line, w') => (Return line, self, w')
    | (None, w') => (Raise KeyboardInterrupt, self, w')
    end.

Definition call_print (text : string) : M S unit :=
  λ self w, (Return tt, self, print text w).

Definition call_create (model : string)
    (messages : list ChatCompletionMessageParam) (tools : list string)
  : M S ChatCompletionMessage :=
  λ self w,
    let '(r, w') := chat_completions_create model messages tools w in
    (Return r, self, w').

Definition call_ddgs_text (keywords : json) (region : string)
  : M S (list SearchResult) :=
  λ self w,
    let '(r, w') := ddgs_text keywords region w in (Return r, self, w').

(** [for x in xs: body(x)] *)
Fixpoint for_each {A : Type} (xs : list A) (body : A → M S unit) : M S unit :=
  match xs with
  | [] => ret tt
  | x :: rest => bind (body x) (λ _, for_each rest body)
  end.
End Monad.

(** The notations [x ← m; k] and [m ;; k] are those of the library. *)
#[global] Instance M_bind `{Env} {S : Type} : MBind (M S) :=
  λ A B k m, bind m k.
#[global] Instance M_ret `{Env} {S : Type} : MRet (M S) :=
  λ A a, ret a.

(** ** simple_chatbot.py *)

Module SimpleChatbot.
Record t : Type := {
  _system_message : ChatCompletionMessageParam;
  _message_history : list ChatCompletionMessageParam
}.

Definition __init__ (system_prompt : string) : t :=
  {| _system_message := system_message system_prompt;
     _message_history := [] |}.

(** [self._message_history.append(m)] *)
Definition append (m : ChatCompletionMessageParam) (self : t) : t :=
  {| _system_message := _system_message self;
     _message_history := _message_history self ++ [m] |}.

Section Methods.
Context `{Env}.

Definition _get_response (user_query : string) : M t (option string) :=
  modify (append (user_message user_query)) ;;
  system_message ← get _system_message;
  message_history ← get _message_history;
  assistant_response ←
    call_create "gpt-4o-mini" (system_message :: message_history) [];
  (if opt_str_truthy (reply_content assistant_response)
   then modify (append
          {| role := "assistant";
             content := reply_content assistant_response;
             tool_calls := None; tool_call_id := None |})
   else ret tt) ;;
  ret (reply_content assistant_response).

(** What [_get_response] sends: the system message, then the history with
    the new user message at its end. *)
Definition request (user_query : string) (self : t)
  : list ChatCompletionMessageParam :=
  _system_message self :: _message_history self ++ [user_message user_query].

(** The text of [f"{response}"] for a [str | None]. *)
Definition format_optional (response : option string) : string :=
  match response with
  | Some s => s
  | None => "None"
  end.

(** The body of the [try] block of [run]. *)
Definition run_body : M t unit :=
  user_query ← call_input "ユーザ: ";
  response ← _get_response user_query;
  call_print ("アシスタント: " +:+ format_optional response).

(** [run]: [fuel] bounds the number of iterations looked at.  The
    answer is [None] while the loop is still going, [Some (Return tt)]
    once Ctrl-C has ended it, and [Some (Raise e)] when [e] escaped. *)
Fixpoint run (fuel : nat) (self : t) (w : World)
  : option (outcome unit) * t * World :=
  match fuel with
  | O => (None, self, w)
  | Datatypes.S fuel' =>
      match run_body self w with
      | (Return _, self', w') => run fuel' self' w'
      | (Raise KeyboardInterrupt, self', w') => (Some (Return tt), self', w')
      | (Raise e, self', w') => (Some (Raise e), self', w')
      end
  end.
End Methods.
End SimpleChatbot.

(** ** simple_agent.py *)

Module SimpleAgent.
Record t : Type := {
  _system_message : ChatCompletionMessageParam;
  _message_history : list ChatCompletionMessageParam;
  _state : State
}.

Definition __init__ (system_prompt : string) : t :=
  {| _system_message := system_message system_prompt;
     _message_history := [];
     _state := START |}.

(** [self._message_history.append(m)] *)
Definition append (m : ChatCompletionMessageParam) (self : t) : t :=
  {| _system_message := _system_message self;
     _message_history := _message_history self ++ [m];
     _state := _state self |}.

(** [self._state = s] *)
Definition set_state (s : State) (self : t) : t :=
  {| _system_message := _system_message self;
     _message_history := _message_history self;
     _state := s |}.

(** The agent with the messages [ms] appended one after the other. *)
Definition extend (ms : list ChatCompletionMessageParam) (self : t) : t :=
  {| _system_message := _system_message self;
     _message_history := _message_history self ++ ms;
     _state := _state self |}.

(** The entry of ["tool_calls"] written for the tool call [t] of the reply. *)
Definition tool_call_param (t : ChatCompletionMessageToolCall) : ToolCallParam :=
  {| param_id := call_id t;
     param_type := call_type t;
     param_function :=
       {| param_name := fn_name (call_function t);
          param_arguments := fn_arguments (call_function t) |} |}.

(** [message_to_add], once the two [if]s have filled it in. *)
Definition message_to_add (assistant_response : ChatCompletionMessage)
  : ChatCompletionMessageParam :=
  {| role := "assistant";
     content :=
       if opt_str_truthy (reply_content assistant_response)
       then reply_content assistant_response else None;
     tool_calls :=
       if opt_list_truthy (reply_tool_calls assistant_response)
       then Some (tool_call_param <$>
                    opt_list_items (reply_tool_calls assistant_response))
       else None;
     tool_call_id := None |}.

(** One hit as the text [f"Title: {..}\nURL: {..}\nBody: {..}"]. *)
Definition format_result (d : SearchResult) : string :=
  "Title: " +:+ title d +:+ LF +:+ "URL: " +:+ href d +:+ LF
    +:+ "Body: " +:+ body d.

(** ["\n\n".join(f"Title: ..." for d in results)] *)
Definition join_results (results : list SearchResult) : string :=
  String.concat (LF +:+ LF) (format_result <$> results).

Record locals : Type := {
  user_query : option string;
  (** [None] while the variable [response] is not bound yet *)
  response : option Response
}.

Section Methods.
Context `{Env}.

(** [ToolCall(id=.., type=.., function_name=.., arguments=json.loads(..))] *)
Definition make_tool_call (tool_call : ChatCompletionMessageToolCall)
  : outcome ToolCall :=
  match json_loads (fn_arguments (call_function tool_call)) with
  | None => Raise (JSONDecodeError (fn_arguments (call_function tool_call)))
  | Some arguments =>
      ToolCall_new (call_id tool_call) (call_type tool_call)
        (fn_name (call_function tool_call)) arguments
  end.

(** The loop [for tool_call in ..: result.append(ToolCall(..))], started
    with the list [result] built so far. *)
Fixpoint collect_tool_calls (tool_calls : list ChatCompletionMessageToolCall)
    (result : list ToolCall) : outcome (list ToolCall) :=
  match tool_calls with
  | [] => Return result
  | tool_call :: rest =>
      match make_tool_call tool_call with
      | Return c => collect_tool_calls rest (result ++ [c])
      | Raise e => Raise e
      end
  end.

Definition _get_response (user_query : option string) : M t Response :=
  (match user_query with
   | Some q =>
       if str_truthy q
       then modify (append (user_message q))
       else ret tt
   | None => ret tt
   end) ;;
  system_message ← get _system_message;
  message_history ← get _message_history;
  assistant_response ←
    call_create "gpt-4o-mini" (system_message :: message_history) ["search"];
  modify (append (message_to_add assistant_response)) ;;
  if opt_list_truthy (reply_tool_calls assistant_response)
  then
    result ← lift_outcome
      (collect_tool_calls
         (opt_list_items (reply_tool_calls assistant_response)) []);
    ret (RList result)
  else
    ret (RStr (or_empty (reply_content assistant_response))).

Definition _run_tool (tool_call : ToolCall) : M t string :=
  if negb (bool_decide (tc_function_name tool_call = "search"))
  then raise (ValueError ("Unsupported tool: " +:+ tc_function_name tool_call))
  else
    match tc_arguments tool_call !! "query" with
    | None => raise (ValueError "query argument is required for search tool.")
    | Some keywords =>
        call_print ("ツール呼び出し: " +:+ tc_function_name tool_call
                      +:+ "(" +:+ dict_str (tc_arguments tool_call) +:+ ")") ;;
        results ← call_ddgs_text keywords "jp-jp";
        let tool_response := join_results results in
        modify (append (tool_message (tc_id tool_call) tool_response)) ;;
        ret tool_response
    end.

(** [for tool_call in response: self._run_tool(tool_call)] *)
Definition run_tools (calls : list ToolCall) : M t unit :=
  for_each calls (λ tool_call, _run_tool tool_call ;; ret tt).

(** The body of the [try] block of [run]: one pass through the [match]
    on [self._state], from the local variables before to those after. *)
Definition run_body (l : locals) : M t locals :=
  state ← get _state;
  match state with
  | START =>
      line ← call_input "ユーザ: ";
      modify (set_state LLM_CALL) ;;
      ret {| user_query := Some line; response := response l |}
  | LLM_CALL =>
      r ← _get_response (user_query l);
      (match r with
       | RStr _ => modify (set_state END)
       | RList _ => modify (set_state TOOL_RUN)
       | RNone => ret tt
       end) ;;
      ret {| user_query := None; response := Some r |}
  | TOOL_RUN =>
      match response l with
      | None => raise (UnboundLocalError "response")
      | Some (RList calls) =>
          run_tools calls ;;
          modify (set_state LLM_CALL) ;;
          ret l
      | Some _ => raise (ValueError "response must be a list of ToolCall.")
      end
  | END =>
      match response l with
      | None => raise (UnboundLocalError "response")
      | Some (RStr s) =>
          call_print ("アシスタント: " +:+ s) ;;
          modify (set_state START) ;;
          ret l
      | Some _ => raise (ValueError "response must be a string.")
      end
  end.

(** Where the loop stands after some iterations. *)
Inductive status : Type :=
  | Running (l : locals)
  | Returned
  | Raised (e : exception).

Fixpoint run_loop (fuel : nat) (l : locals) (self : t) (w : World)
  : status * t * World :=
  match fuel with
  | O => (Running l, self, w)
  | Datatypes.S fuel' =>
      match run_body l self w with
      | (Return l', self', w') => run_loop fuel' l' self' w'
      | (Raise KeyboardInterrupt, self', w') => (Returned, self', w')
      | (Raise e, self', w') => (Raised e, self', w')
      end
  end.

(** [run]: [user_query] starts as [None], [response] starts unbound. *)
Definition run (fuel : nat) : t → World → status * t * World :=
  run_loop fuel {| user_query := None; response := None |}.

(** *** Executions of the loop

    A configuration is what an iteration starts from: the local variables
    of [run], the agent and the world.  [step c c'] is one iteration that
    came to its end without an exception. *)
Record config : Type := Config {
  vars : locals;
  agent : t;
  world : World
}.

Definition step (c c' : config) : Prop :=
  run_body (vars c) (agent c) (world c)
  = (Return (vars c'), agent c', world c').

(** The configurations [run] goes through on a freshly built agent. *)
Inductive reachable : config → Prop :=
  | reachable_init (system_prompt : string) (w : World) :
      reachable
        (Config {| user_query := None; response := None |}
           (__init__ system_prompt) w)
  | reachable_step (c c' : config) :
      reachable c → step c c' → reachable c'.

(** [turn n c c']: [n] iterations lead from [c] to [c'], the state is
    [START] in [c'] and in no configuration in between. *)
Inductive turn : nat → config → config → Prop :=
  | turn_last (c c' : config) :
      step c c' → _state (agent c') = START → turn 1 c c'
  | turn_next (n : nat) (c c1 c' : config) :
      step c c1 → _state (agent c1) ≠ START → turn n c1 c' →
      turn (Datatypes.S n) c c'.

(** The model gave [reply] as its answer to some request of the agent. *)
Definition asked (reply : ChatCompletionMessage) : Prop :=
  ∃ messages w,
    (chat_completions_create "gpt-4o-mini" messages ["search"] w).1 = reply.

(** The tool messages [outs] answer the tool calls [calls] one by one, in
    their order. *)
Definition answers (calls : list ChatCompletionMessageToolCall)
    (outs : list ChatCompletionMessageParam) : Prop :=
  Forall2 (λ c m, ∃ text, m = tool_message (call_id c) text) calls outs.

(** What a turn leaves in the history after the user message: for every
    round of tool use the assistant message of the reply and the tool
    messages answering its calls, then the assistant message of the last
    reply. *)
Definition round_messages
    (round : ChatCompletionMessage * list ChatCompletionMessageParam)
  : list ChatCompletionMessageParam :=
  message_to_add round.1 :: round.2.

Definition turn_messages
    (rounds : list (ChatCompletionMessage * list ChatCompletionMessageParam))
    (final : ChatCompletionMessage) : list ChatCompletionMessageParam :=
  (rounds ≫= round_messages) ++ [message_to_add final].

(** [run_turn n l self w]: the configuration after [n] iterations, when
    none of them raised, the state is [START] after the last and after no
    other. *)
Fixpoint run_turn (n : nat) (l : locals) (self : t) (w : World)
  : option config :=
  match n with
  | O => None
  | Datatypes.S n' =>
      match run_body l self w with
      | (Return l', self', w') =>
          if decide (_state self' = START)
          then match n' with
               | O => Some (Config l' self' w')
               | Datatypes.S _ => None
               end
          else run_turn n' l' self' w'
      | (Raise _, _, _) => None
      end
  end.

(** The configuration after [fuel] iterations, if the loop is still going. *)
Definition config_after (fuel : nat) (c : config) : option config :=
  match run_loop fuel (vars c) (agent c) (world c) with
  | (Running l, self, w) => Some (Config l self w)
  | _ => None
  end.

(** What holds of the local variable [response] in the configurations the
    loop reaches: a list of tool calls in [TOOL_RUN], a string in [END]. *)
Definition response_fits (c : config) : Prop :=
  (_state (agent c) = TOOL_RUN →
     ∃ calls, response (vars c) = Some (RList calls)) ∧
  (_state (agent c) = END → ∃ s, response (vars c) = Some (RStr s)).

(** A round of tool use as the history shows it: a reply of the model that
    has tool calls, and the tool messages that answer them. *)
Definition round_fits
    (round : ChatCompletionMessage * list ChatCompletionMessageParam) : Prop :=
  asked round.1 ∧
  ∃ calls, reply_tool_calls round.1 = Some calls ∧ calls ≠ [] ∧
           answers calls round.2.

(** The reply that ends the turn: one without tool calls. *)
Definition final_fits (final : ChatCompletionMessage) : Prop :=
  asked final ∧ opt_list_truthy (reply_tool_calls final) = false.

(** What [_get_response] appends for its argument [user_query]. *)
Definition user_part (user_query : option string)
  : list ChatCompletionMessageParam :=
  match user_query with
  | Some q => if str_truthy q then [user_message q] else []
  | None => []
  end.

(** What [_get_response] sends: the system message, then the history, at
    whose end the user message now stands if one was appended. *)
Definition request (user_query : option string) (self : t)
  : list ChatCompletionMessageParam :=
  _system_message self :: _message_history self ++ user_part user_query.

(** What [_get_response] hands back once the model has replied. *)
Definition result_of (reply : ChatCompletionMessage) : outcome Response :=
  if opt_list_truthy (reply_tool_calls reply)
  then
    match collect_tool_calls (opt_list_items (reply_tool_calls reply)) [] with
    | Return l => Return (RList l)
    | Raise e => Raise e
    end
  else Return (RStr (or_empty (reply_content reply))).

(** The entry [p] of ["tool_calls"] records the tool call [c] of the reply:
    its id, its type, the name of its function and the text of its
    arguments as the model wrote it. *)
Definition records (c : ChatCompletionMessageToolCall) (p : ToolCallParam)
  : Prop :=
  param_id p = call_id c ∧ param_type p = call_type c ∧
  param_name (param_function p) = fn_name (call_function c) ∧
  param_arguments (param_function p) = fn_arguments (call_function c).

(** The text of the arguments of [c] is the JSON text of an object. *)
Definition decodable (c : ChatCompletionMessageToolCall) : Prop :=
  ∃ d, json_loads (fn_arguments (call_function c)) = Some (JObject d).

(** The [ToolCall] [tc] carries the tool call [c] of the reply: same id,
    type and function name, and for arguments the dictionary that the text
    of the arguments of [c] decodes to. *)
Definition carries (c : ChatCompletionMessageToolCall) (tc : ToolCall) : Prop :=
  tc_id tc = call_id c ∧ tc_type tc = call_type c ∧
  tc_function_name tc = fn_name (call_function c) ∧
  json_loads (fn_arguments (call_function c)) = Some (JObject (tc_arguments tc)).

(** [_run_tool] accepts the tool call: it names the search tool and has a
    query. *)
Definition runnable (tc : ToolCall) : Prop :=
  tc_function_name tc = "search" ∧ is_Some (tc_arguments tc !! "query").

(** The tool messages [outs] answer the [ToolCall]s [calls] one by one. *)
Definition outputs (calls : list ToolCall)
    (outs : list ChatCompletionMessageParam) : Prop :=
  Forall2 (λ tc m, ∃ text, m = tool_message (tc_id tc) text) calls outs.
End Methods.
End SimpleAgent.


(** ** A scripted environment

    For the examples the collaborators read their answers from a script and
    log what they were asked.  When the typed lines run out the user presses
    Ctrl-C; when the replies run out the service answers with an empty
    message; when the hits run out the search finds nothing. *)

Module Script.
Record world : Type := {
  stdin : list string;
  replies : list ChatCompletionMessage;
  hits : list (list SearchResult);
  stdout : list string;
  requests : list (list ChatCompletionMessageParam);
  searches : list json
}.

Definition script_input (prompt : string) (w : world) : option string * world :=
  match stdin w with
  | line :: rest =>
      (Some line,
       {| stdin := rest; replies := replies w; hits := hits w;
          stdout := stdout w ++ [prompt]; requests := requests w;
          searches := searches w |})
  | [] =>
      (None,
       {| stdin := []; replies := replies w; hits := hits w;
          stdout := stdout w ++ [prompt]; requests := requests w;
          searches := searches w |})
  end.

Definition script_print (text : string) (w : world) : world :=
  {| stdin := stdin w; replies := replies w; hits := hits w;
     stdout := stdout w ++ [text]; requests := requests w;
     searches := searches w |}.

Definition script_create (model : string)
    (messages : list ChatCompletionMessageParam) (tools : list string)
    (w : world) : ChatCompletionMessage * world :=
  (default {| reply_content := None; reply_tool_calls := None |}
     (head (replies w)),
   {| stdin := stdin w; replies := tail (replies w); hits := hits w;
      stdout := stdout w; requests := requests w ++ [messages];
      searches := searches w |}).

Definition script_ddgs_text (keywords : json) (region : string) (w : world)
  : list SearchResult * world :=
  (default [] (head (hits w)),
   {| stdin := stdin w; replies := replies w; hits := tail (hits w);
      stdout := stdout w; requests := requests w;
      searches := searches w ++ [keywords] |}).

(** The decoder of the script reads the fragment of JSON the examples use:
    one object whose members are strings without escapes.  Everything else
    is refused. *)
Definition DQ : ascii := ascii_of_nat 34.

Definition is_space (c : ascii) : bool :=
  bool_decide (c ∈ [" "; "009"; "010"; "013"]%char).

Fixpoint skip_space (s : string) : string :=
  match s with
  | String c r => if is_space c then skip_space r else s
  | EmptyString => EmptyString
  end.

(** The characters after an opening quote, up to the closing one. *)
Fixpoint read_text (s : string) : option (string * string) :=
  match s with
  | EmptyString => None
  | String c r =>
      if bool_decide (c = DQ) then Some (EmptyString, r)
      else if bool_decide (c = "\"%char) then None
      else if Nat.ltb (nat_of_ascii c) 32 then None
      else '(text, rest) ← read_text r; Some (String c text, rest)
  end.

Definition expect (c : ascii) (s : string) : option string :=
  match skip_space s with
  | String c' r => if bool_decide (c = c') then Some r else None
  | EmptyString => None
  end.

Definition read_string (s : string) : option (string * string) :=
  expect DQ s ≫= read_text.

Fixpoint read_members (fuel : nat) (s : string) (d : gmap string json)
  : option (gmap string json * string) :=
  match fuel with
  | O => None
  | Datatypes.S fuel' =>
      '(k, s1) ← read_string s;
      s2 ← expect ":" s1;
      '(v, s3) ← read_string s2;
      match skip_space s3 with
      | String c r =>
          if bool_decide (c = ","%char)
          then read_members fuel' r (<[k := JString v]> d)
          else if bool_decide (c = "}"%char)
          then Some (<[k := JString v]> d, r)
          else None
      | EmptyString => None
      end
  end.

Definition script_json_loads (s : string) : option json :=
  s1 ← expect "{" s;
  '(d, rest) ←
    match expect "}" s1 with
    | Some rest => Some (∅, rest)
    | None => read_members (String.length s) s1 ∅
    end;
  match skip_space rest with
  | EmptyString => Some (JObject d)
  | String _ _ => None
  end.

(** A dictionary of strings as Python prints it; other values are outside
    the fragment and are shown as an ellipsis. *)
Definition script_dict_str (d : gmap string json) : string :=
  "{" +:+
  String.concat ", "
    ((λ kv : string * json,
        "'" +:+ kv.1 +:+ "': " +:+
        match kv.2 with
        | JString s => "'" +:+ s +:+ "'"
        | _ => "..."
        end) <$> map_to_list d)
  +:+ "}".

#[export] Instance script_env : Env := {|
  World := world;
  input := script_input;
  print := script_print;
  chat_completions_create := script_create;
  ddgs_text := script_ddgs_text;
  json_loads := script_json_loads;
  dict_str := script_dict_str
|}.

(** The JSON text of an object with one string member. *)
Definition object1 (k v : string) : string :=
  "{" +:+ String DQ k +:+ String DQ ": " +:+ String DQ v +:+ String DQ "}".

Definition start_world (lines : list string)
    (rs : list ChatCompletionMessage) (hs : list (list SearchResult)) : world :=
  {| stdin := lines; replies := rs; hits := hs;
     stdout := []; requests := []; searches := [] |}.

Definition text_reply (s : string) : ChatCompletionMessage :=
  {| reply_content := Some s; reply_tool_calls := None |}.

Definition search_call (id arguments : string) : ChatCompletionMessageToolCall :=
  {| call_id := id; call_type := "function";
     call_function := {| fn_name := "search"; fn_arguments := arguments |} |}.

Definition tool_reply (calls : list ChatCompletionMessageToolCall)
  : ChatCompletionMessage :=
  {| reply_content := None; reply_tool_calls := Some calls |}.
End Script.

(** ** A session with the scripted environment *)

Module Demo.
#[local] Existing Instance Script.script_env.

Definition hit : SearchResult :=
  {| title := "Rocq 9.3"; href := "https://rocq-prover.org";
     body := "Released." |}.

(** The reply that asks for a search, and the tool call made from it. *)
Definition asks_search : ChatCompletionMessage :=
  Script.tool_reply
    [Script.search_call "call_1" (Script.object1 "query" "rocq")].

Definition search_tool_call : ToolCall :=
  {| tc_id := "call_1"; tc_type := "function"; tc_function_name := "search";
     tc_arguments := {[ "query" := JString "rocq" ]} |}.

(** The user asks, the model searches and then answers. *)
Definition session : Script.world :=
  Script.start_world ["news?"]
    [asks_search; Script.text_reply "Rocq 9.3 is out."] [[hit]].

(** The user presses return on an empty line, the model answers. *)
Definition empty_line : Script.world :=
  Script.start_world [""] [Script.text_reply "hi"] [].

(** The model asks for a search with arguments that are not JSON. *)
Definition broken_arguments (arguments : string) : Script.world :=
  Script.start_world ["news?"]
    [Script.tool_reply [Script.search_call "call_1" arguments]] [].

(** [run] about to start on a freshly built agent. *)
Definition fresh (w : Script.world) : SimpleAgent.config :=
  SimpleAgent.Config
    {| SimpleAgent.user_query := None; SimpleAgent.response := None |}
    (SimpleAgent.__init__ "system") w.
End Demo.

(** ** The programs as started from the command line *)


Section Main.
Context `{Env}.

End Main.

(** ** A journal of what the collaborators are asked

    Any environment can be wrapped so that it writes down, next to its own
    world, every request sent to the model (model name, messages, tools
    offered), every search (keywords, region) and every text printed.  The
    answers are those of the wrapped environment. *)

Module Journal.
Record journal : Type := {
  requests : list (string * list ChatCompletionMessageParam * list string);
  searches : list (json * string);
  printed : list string
}.

Definition empty : journal :=
  {| requests := []; searches := []; printed := [] |}.

Definition add_request
    (r : string * list ChatCompletionMessageParam * list string)
    (j : journal) : journal :=
  {| requests := requests j ++ [r]; searches := searches j;
     printed := printed j |}.

Definition add_search (s : json * string) (j : journal) : journal :=
  {| requests := requests j; searches := searches j ++ [s];
     printed := printed j |}.

Definition add_printed (text : string) (j : journal) : journal :=
  {| requests := requests j; searches := searches j;
     printed := printed j ++ [text] |}.

Definition env (E : Env) : Env := {|
  World := (@World E * journal)%type;
  input := λ prompt wj,
    ((@input E prompt wj.1).1, ((@input E prompt wj.1).2, wj.2));
  print := λ text wj, (@print E text wj.1, add_printed text wj.2);
  chat_completions_create := λ model messages tools wj,
    ((@chat_completions_create E model messages tools wj.1).1,
     ((@chat_completions_create E model messages tools wj.1).2,
      add_request (model, messages, tools) wj.2));
  ddgs_text := λ keywords region wj,
    ((@ddgs_text E keywords region wj.1).1,
     ((@ddgs_text E keywords region wj.1).2,
      add_search (keywords, region) wj.2));
  json_loads := @json_loads E;
  dict_str := @dict_str E
|}.
End Journal.

(** ** Shapes of histories *)




(** A message as the agent writes them: a user message with its content,
    an assistant message (content and tool calls are there only when not
    empty), or a tool message with its content and the id it answers. *)
Definition agent_message (m : ChatCompletionMessageParam) : Prop :=
  (role m = "user" ∧ (∃ s, content m = Some s ∧ s ≠ "") ∧
   tool_calls m = None ∧ tool_call_id m = None) ∨
  (role m = "assistant" ∧ content m ≠ Some "" ∧ tool_calls m ≠ Some [] ∧
   tool_call_id m = None) ∨
  (role m = "tool" ∧ is_Some (content m) ∧ tool_calls m = None ∧
   is_Some (tool_call_id m)).

(** Every tool message of the history [h] answers a tool call recorded in
    an assistant message that stands before it. *)
Definition answered (h : list ChatCompletionMessageParam) : Prop :=
  ∀ i m, h !! i = Some m → role m = "tool" →
    ∃ j a ps p,
      j < i ∧ h !! j = Some a ∧ role a = "assistant" ∧
      tool_calls a = Some ps ∧ p ∈ ps ∧ tool_call_id m = Some (param_id p).

(** How [run] of the agent can have ended on [self'] with the exception
    [e]: a reply that could not be turned into a response, in [LLM_CALL],
    or a tool call that was refused, in [TOOL_RUN]. *)
Definition agent_failure (e : exception) (self' : SimpleAgent.t) : Prop :=
  (SimpleAgent._state self' = LLM_CALL ∧
   ((∃ doc, e = JSONDecodeError doc) ∨ e = ValidationError "ToolCall")) ∨
  (SimpleAgent._state self' = TOOL_RUN ∧
   ((∃ name, e = ValueError ("Unsupported tool: " +:+ name)) ∨
    e = ValueError "query argument is required for search tool.")).




(** ** More scripted replies *)

Module Cases.
#[local] Existing Instance Script.script_env.

(** A tool call for a tool the agent does not have. *)
Definition calculator_call : ChatCompletionMessageToolCall :=
  {| call_id := "call_2"; call_type := "function";
     call_function :=
       {| fn_name := "calculator";
          fn_arguments := Script.object1 "expression" "1+1" |} |}.

Definition calculator_tool_call : ToolCall :=
  {| tc_id := "call_2"; tc_type := "function";
     tc_function_name := "calculator";
     tc_arguments := {[ "expression" := JString "1+1" ]} |}.

(** The model asks for the calculator. *)
Definition asks_calculator : Script.world :=
  Script.start_world ["1+1?"] [Script.tool_reply [calculator_call]] [].

(** A reply with two tool calls, the second with arguments cut short. *)
Definition second_call_broken : ChatCompletionMessage :=
  Script.tool_reply
    [Script.search_call "call_1" (Script.object1 "query" "rocq");
     Script.search_call "call_2" "{"].

(** A reply with a text and a tool call. *)
Definition text_and_search : ChatCompletionMessage :=
  {| reply_content := Some "Let me look.";
     reply_tool_calls :=
       Some [Script.search_call "call_1" (Script.object1 "query" "rocq")] |}.
End Cases.

(** * Properties *)

(** Unfolds the monad down to the pairs it computes. *)
Ltac run_monad :=
  unfold mbind, M_bind, mret, M_ret, bind, ret, raise, get, modify,
    lift_outcome, call_input, call_print, call_create, call_ddgs_text in *;
  simpl in *.

Lemma str_truthy_true (s : string) : str_truthy s = true ↔ s ≠ "".
Proof.
  unfold str_truthy. rewrite negb_true_iff, bool_decide_eq_false. done.
Qed.

Lemma opt_str_truthy_false (o : option string) :
  opt_str_truthy o = false ↔ o = None ∨ o = Some "".
Proof.
  destruct o as [s|]; simpl.
  - unfold str_truthy. rewrite negb_false_iff, bool_decide_eq_true.
    split; [intros ->; by right | intros [?|[= ->]]; done].
  - split; [by left | done].
Qed.

Lemma opt_list_truthy_true {A : Type} (o : option (list A)) :
  opt_list_truthy o = true ↔ ∃ l, o = Some l ∧ l ≠ [].
Proof.
  destruct o as [[|x l]|]; simpl; split; try done.
  - intros (l & [= <-] & ?). done.
  - intros _. by exists (x :: l).
  - intros (l & ? & _). done.
Qed.

(** ** The chatbot *)

Section Chatbot.
Context `{Env}.
Import SimpleChatbot.

Lemma chatbot_get_response_unfold (q : string) (self : t) (w : World) :
  _get_response q self w =
  let answer :=
    chat_completions_create "gpt-4o-mini" (request q self) [] w in
  (Return (reply_content answer.1),
   {| _system_message := _system_message self;
      _message_history :=
        _message_history self ++ user_message q ::
          (if opt_str_truthy (reply_content answer.1)
           then [{| role := "assistant"; content := reply_content answer.1;
                    tool_calls := None; tool_call_id := None |}]
           else []) |},
   answer.2).
Proof.
  unfold _get_response, request, append. run_monad.
  destruct (chat_completions_create _ _ _ _) as [reply w'] eqn:E. simpl.
  destruct (opt_str_truthy (reply_content reply)); simpl.
  - by rewrite <- app_assoc.
  - done.
Qed.

(** C3, as amended: for every query [q], history and world,
    [SimpleChatbot._get_response] appends the user message for [q], asks
    the model with the system message followed by the whole history (which
    now ends in that user message), appends the reply as an assistant
    message when the content of the reply is a non-empty string (and
    appends nothing for it otherwise), and returns the content of the
    reply. *)
Theorem C3_chatbot_get_response (q : string) (self : t) (w w' : World)
    (reply : ChatCompletionMessage) :
  chat_completions_create "gpt-4o-mini"
    (_system_message self :: _message_history self ++ [user_message q]) [] w
  = (reply, w') →
  ∃ self',
    _get_response q self w = (Return (reply_content reply), self', w') ∧
    _system_message self' = _system_message self ∧
    _message_history self' =
      _message_history self ++ user_message q ::
        (if opt_str_truthy (reply_content reply)
         then [{| role := "assistant"; content := reply_content reply;
                  tool_calls := None; tool_call_id := None |}]
         else []).
Proof.
  intros E. rewrite chatbot_get_response_unfold.
  unfold request. rewrite E. simpl. eauto.
Qed.

(** C10: when the content of the reply is [None] or the empty string,
    [SimpleChatbot._get_response] appends no assistant message: the history
    grows by the user message alone, and that content is returned as it is;
    the history then ends in a user message without a reply. *)
Theorem C10_chatbot_empty_reply (q : string) (self : t) (w w' : World)
    (reply : ChatCompletionMessage) :
  chat_completions_create "gpt-4o-mini"
    (_system_message self :: _message_history self ++ [user_message q]) [] w
  = (reply, w') →
  reply_content reply = None ∨ reply_content reply = Some "" →
  ∃ self',
    _get_response q self w = (Return (reply_content reply), self', w') ∧
    _message_history self' = _message_history self ++ [user_message q] ∧
    last (_message_history self') = Some (user_message q).
Proof.
  intros E Hc. apply opt_str_truthy_false in Hc.
  rewrite chatbot_get_response_unfold. unfold request.
  rewrite E. simpl. rewrite Hc.
  eexists. split_and!; [done | done |]. simpl. apply last_snoc.
Qed.
End Chatbot.

(** ** The agent: its two methods *)

Section Agent.
Context `{Env}.
Import SimpleAgent.

Lemma make_tool_call_Return (c : ChatCompletionMessageToolCall) (tc : ToolCall) :
  make_tool_call c = Return tc ↔
  json_loads (fn_arguments (call_function c)) = Some (JObject (tc_arguments tc)) ∧
  tc_id tc = call_id c ∧ tc_type tc = call_type c ∧
  tc_function_name tc = fn_name (call_function c).
Proof.
  unfold make_tool_call, ToolCall_new.
  destruct (json_loads _) as [[| | | | |d]|]; split;
    try (intros [? _]; discriminate); try discriminate.
  - intros [= <-]. done.
  - intros ([= ->] & ? & ? & ?). destruct tc; simpl in *. by subst.
Qed.

Lemma make_tool_call_Raise (c : ChatCompletionMessageToolCall) (e : exception) :
  make_tool_call c = Raise e →
  (json_loads (fn_arguments (call_function c)) = None ∧
   e = JSONDecodeError (fn_arguments (call_function c))) ∨
  ((∃ v, json_loads (fn_arguments (call_function c)) = Some v ∧
         ∀ d, v ≠ JObject d) ∧
   e = ValidationError "ToolCall").
Proof.
  unfold make_tool_call, ToolCall_new.
  destruct (json_loads _) as [v|]; [|intros [= <-]; by left].
  destruct v; intros [= <-]; right; (split; [eexists; split; [done|done] | done]).
Qed.

Lemma collect_tool_calls_acc (calls : list ChatCompletionMessageToolCall)
    (acc : list ToolCall) :
  collect_tool_calls calls acc =
  match collect_tool_calls calls [] with
  | Return l => Return (acc ++ l)
  | Raise e => Raise e
  end.
Proof.
  revert acc. induction calls as [|c calls IH]; intros acc; simpl.
  - by rewrite app_nil_r.
  - destruct (make_tool_call c) as [tc|e]; [|done].
    rewrite (IH (acc ++ [tc])), (IH [tc]).
    destruct (collect_tool_calls calls []); [|done].
    by rewrite <- app_assoc.
Qed.

(** The loop returns the list of the [ToolCall]s built from the calls, one
    for each and in their order, exactly when each of them can be built. *)
Lemma collect_tool_calls_Return (calls : list ChatCompletionMessageToolCall)
    (l : list ToolCall) :
  collect_tool_calls calls [] = Return l ↔
  Forall2 (λ c tc, make_tool_call c = Return tc) calls l.
Proof.
  revert l. induction calls as [|c calls IH]; intros l; simpl.
  - split; [intros [= <-]; constructor | by inversion 1].
  - destruct (make_tool_call c) as [tc|e] eqn:E.
    + rewrite collect_tool_calls_acc. split.
      * destruct (collect_tool_calls calls []) as [l'|] eqn:E'; [|done].
        intros [= <-]. simpl. constructor; [done|]. by apply IH.
      * inversion 1 as [|? tc' ? l' Hc Hl]; subst.
        apply IH in Hl. rewrite Hl. simpl. congruence.
    + split; [done|]. inversion 1; congruence.
Qed.

Lemma collect_tool_calls_Raise (calls : list ChatCompletionMessageToolCall)
    (acc : list ToolCall) (e : exception) :
  collect_tool_calls calls acc = Raise e →
  ∃ c, c ∈ calls ∧ make_tool_call c = Raise e.
Proof.
  revert acc. induction calls as [|c calls IH]; intros acc; simpl; [done|].
  destruct (make_tool_call c) as [tc|e'] eqn:E.
  - intros Hr. destruct (IH _ Hr) as (c' & ? & ?).
    exists c'. split; [by right | done].
  - intros [= <-]. exists c. split; [by left | done].
Qed.

Lemma get_response_unfold (uq : option string) (self : t) (w : World) :
  _get_response uq self w =
  let answer :=
    chat_completions_create "gpt-4o-mini" (request uq self) ["search"] w in
  (result_of answer.1,
   {| _system_message := _system_message self;
      _message_history :=
        _message_history self ++ user_part uq ++ [message_to_add answer.1];
      _state := _state self |},
   answer.2).
Proof.
  unfold _get_response, request, result_of, user_part, append. run_monad.
  destruct uq as [q|]; [destruct (str_truthy q)|]; simpl;
    rewrite ?app_nil_r;
    destruct (chat_completions_create _ _ _ _) as [reply w'] eqn:E; simpl;
    rewrite <- ?app_assoc; simpl;
    (destruct (opt_list_truthy (reply_tool_calls reply)); simpl; [|done]);
    destruct (collect_tool_calls _ _); done.
Qed.

Lemma run_tool_unfold (tc : ToolCall) (self : t) (w : World) :
  _run_tool tc self w =
  if bool_decide (tc_function_name tc = "search")
  then
    match tc_arguments tc !! "query" with
    | None =>
        (Raise (ValueError "query argument is required for search tool."),
         self, w)
    | Some keywords =>
        let found :=
          ddgs_text keywords "jp-jp"
            (print ("ツール呼び出し: " +:+ tc_function_name tc +:+ "("
                      +:+ dict_str (tc_arguments tc) +:+ ")") w) in
        (Return (join_results found.1),
         append (tool_message (tc_id tc) (join_results found.1)) self,
         found.2)
    end
  else (Raise (ValueError ("Unsupported tool: " +:+ tc_function_name tc)), self, w).
Proof.
  unfold _run_tool. destruct (bool_decide _); simpl; [|done].
  destruct (tc_arguments tc !! "query") as [kw|]; [|done].
  run_monad. destruct (ddgs_text _ _ _) as [results w']. done.
Qed.
End Agent.

Section AgentMethods.
Context `{Env}.
Import SimpleAgent.

Lemma or_empty_default (o : option string) : or_empty o = default "" o.
Proof.
  destruct o as [s|]; simpl; [|done].
  destruct (str_truthy s) eqn:E; [done|].
  unfold str_truthy in E. rewrite negb_false_iff, bool_decide_eq_true in E. done.
Qed.

Lemma message_to_add_records (reply : ChatCompletionMessage)
    (calls : list ChatCompletionMessageToolCall) :
  reply_tool_calls reply = Some calls → calls ≠ [] →
  ∃ ps, tool_calls (message_to_add reply) = Some ps ∧ Forall2 records calls ps.
Proof.
  intros Hc Hne. exists (tool_call_param <$> calls). split.
  - unfold message_to_add. simpl. rewrite Hc. by destruct calls.
  - apply Forall2_fmap_r, Forall_Forall2_diag, Forall_forall.
    intros c _. by unfold records.
Qed.

Lemma carries_make_tool_call (c : ChatCompletionMessageToolCall) (tc : ToolCall) :
  make_tool_call c = Return tc ↔ carries c tc.
Proof. rewrite make_tool_call_Return. unfold carries. tauto. Qed.

Lemma decodable_make_tool_call (c : ChatCompletionMessageToolCall) :
  decodable c ↔ ∃ tc, make_tool_call c = Return tc.
Proof.
  split.
  - intros [d Hd].
    exists {| tc_id := call_id c; tc_type := call_type c;
              tc_function_name := fn_name (call_function c);
              tc_arguments := d |}.
    by apply make_tool_call_Return.
  - intros [tc Htc]. apply make_tool_call_Return in Htc as [? _].
    by exists (tc_arguments tc).
Qed.

Lemma collect_decodable (calls : list ChatCompletionMessageToolCall) :
  Forall decodable calls →
  ∃ l, collect_tool_calls calls [] = Return l ∧ Forall2 carries calls l.
Proof.
  induction 1 as [|c calls Hc _ (l & Hl & Hf)].
  - exists []. split; [done | constructor].
  - apply decodable_make_tool_call in Hc as [tc Htc].
    exists (tc :: l). split.
    + apply collect_tool_calls_Return. constructor; [done|].
      by apply collect_tool_calls_Return.
    + constructor; [by apply carries_make_tool_call | done].
Qed.

Lemma make_tool_call_Raise_not_decodable
    (c : ChatCompletionMessageToolCall) (e : exception) :
  make_tool_call c = Raise e → ¬ decodable c.
Proof.
  intros Hr [tc Htc]%decodable_make_tool_call. congruence.
Qed.

(** C2: [_run_tool] raises [ValueError] exactly when the function name of
    the tool call is not ["search"] or its arguments have no key ["query"],
    and when it does, the agent (its message history in particular) and the
    world are as they were. *)
Theorem C2_run_tool_value_error (tc : ToolCall) (self : t) (w : World) :
  ((∃ msg, (_run_tool tc self w).1.1 = Raise (ValueError msg)) ↔
   (tc_function_name tc ≠ "search" ∨ tc_arguments tc !! "query" = None)) ∧
  (∀ msg, (_run_tool tc self w).1.1 = Raise (ValueError msg) →
     (_run_tool tc self w).1.2 = self ∧
     _message_history (_run_tool tc self w).1.2 = _message_history self ∧
     (_run_tool tc self w).2 = w).
Proof.
  rewrite run_tool_unfold. case_bool_decide as Hn.
  - destruct (tc_arguments tc !! "query") as [kw|] eqn:Hq; simpl.
    + split; [|done]. split; [intros [? ?]; done | intros [?|?]; done].
    + split; [|done]. split; [by right | by eexists].
  - simpl. split; [|done]. split; [by left | by eexists].
Qed.

(** C7: for a tool call whose function name is ["search"] and whose
    arguments have a ["query"], [_run_tool] appends exactly one message,
    with the role ["tool"], the id of the tool call as [tool_call_id] and
    for content the hits, each written as the three lines [Title: ..],
    [URL: ..], [Body: ..] and joined by blank lines; it returns that
    content, and it leaves the earlier entries of the history, the system
    message and [_state] as they were. *)
Theorem C7_run_tool_search (tc : ToolCall) (self : t) (w w' : World)
    (keywords : json) (results : list SearchResult) :
  tc_function_name tc = "search" →
  tc_arguments tc !! "query" = Some keywords →
  ddgs_text keywords "jp-jp"
    (print ("ツール呼び出し: " +:+ tc_function_name tc +:+ "("
              +:+ dict_str (tc_arguments tc) +:+ ")") w)
  = (results, w') →
  let text :=
    String.concat (LF +:+ LF)
      ((λ d, "Title: " +:+ title d +:+ LF +:+ "URL: " +:+ href d +:+ LF
               +:+ "Body: " +:+ body d) <$> results) in
  ∃ self',
    _run_tool tc self w = (Return text, self', w') ∧
    _message_history self' =
      _message_history self ++
        [{| role := "tool"; content := Some text; tool_calls := None;
            tool_call_id := Some (tc_id tc) |}] ∧
    _state self' = _state self ∧
    _system_message self' = _system_message self.
Proof.
  intros Hn Hq Hs text. rewrite run_tool_unfold.
  rewrite bool_decide_eq_true_2 by done. rewrite Hq, Hs. simpl.
  eexists. split; [reflexivity|]. done.
Qed.

(** C6, as amended: when the reply of the model has tool calls,
    [_get_response] appends one assistant message that records all of them
    (id, type, function name and the text of the arguments as it came); and
    when the text of the arguments of each of them decodes to a JSON object
    it returns a list of [ToolCall]s, one for each tool call of the reply
    and in the same order, each with the same id, type and function name
    and with the decoded dictionary as its arguments.  When it returns at
    all, that list is what it returns. *)
Theorem C6_get_response_tool_calls (uq : option string) (self : t)
    (w w' : World) (reply : ChatCompletionMessage)
    (calls : list ChatCompletionMessageToolCall) :
  chat_completions_create "gpt-4o-mini" (request uq self) ["search"] w
  = (reply, w') →
  reply_tool_calls reply = Some calls →
  calls ≠ [] →
  ∃ o self' m ps,
    _get_response uq self w = (o, self', w') ∧
    _message_history self' = _message_history self ++ user_part uq ++ [m] ∧
    role m = "assistant" ∧
    tool_calls m = Some ps ∧
    Forall2 records calls ps ∧
    (Forall decodable calls →
       ∃ l, o = Return (RList l) ∧ Forall2 carries calls l) ∧
    (∀ r, o = Return r → ∃ l, r = RList l ∧ Forall2 carries calls l).
Proof.
  intros Hr Hc Hne. rewrite get_response_unfold, Hr. simpl.
  destruct (message_to_add_records reply calls Hc Hne) as (ps & Hps & Hrec).
  eexists (result_of reply), _, (message_to_add reply), ps.
  split; [reflexivity|]. split_and!; try done.
  - unfold result_of. rewrite Hc. simpl.
    destruct calls as [|c calls]; [done|]. intros Hd.
    destruct (collect_decodable _ Hd) as (l & -> & Hl). eauto.
  - unfold result_of. rewrite Hc. simpl.
    destruct calls as [|c calls]; [done|]. simpl opt_list_truthy. cbv iota.
    destruct (collect_tool_calls (c :: calls) []) as [l|e] eqn:E; [|done].
    intros r [= <-]. exists l. split; [done|].
    apply collect_tool_calls_Return in E.
    eapply Forall2_impl; [exact E|]. intros ???. by apply carries_make_tool_call.
Qed.
End AgentMethods.

(** ** The agent: one iteration of [run] *)

Section AgentLoop.
Context `{Env}.
Import SimpleAgent.

Lemma extend_nil (self : t) : extend [] self = self.
Proof. destruct self. unfold extend. simpl. by rewrite app_nil_r. Qed.

Lemma extend_extend (ms ms' : list ChatCompletionMessageParam) (self : t) :
  extend ms' (extend ms self) = extend (ms ++ ms') self.
Proof. unfold extend. simpl. by rewrite app_assoc. Qed.

Lemma append_extend (m : ChatCompletionMessageParam) (self : t) :
  append m self = extend [m] self.
Proof. done. Qed.

Lemma get_response_extend (uq : option string) (self : t) (w : World) :
  _get_response uq self w =
  let answer :=
    chat_completions_create "gpt-4o-mini" (request uq self) ["search"] w in
  (result_of answer.1,
   extend (user_part uq ++ [message_to_add answer.1]) self, answer.2).
Proof. by rewrite get_response_unfold. Qed.

Lemma result_of_not_None (reply : ChatCompletionMessage) :
  result_of reply ≠ Return RNone.
Proof.
  unfold result_of. destruct (opt_list_truthy _); [|done].
  by destruct (collect_tool_calls _ _).
Qed.

Lemma result_of_RList (reply : ChatCompletionMessage) (l : list ToolCall) :
  result_of reply = Return (RList l) →
  ∃ calls, reply_tool_calls reply = Some calls ∧ calls ≠ [] ∧
           Forall2 carries calls l.
Proof.
  unfold result_of.
  destruct (opt_list_truthy _) eqn:Ht; [|done].
  apply opt_list_truthy_true in Ht as (calls & Hc & Hne).
  rewrite Hc. simpl.
  destruct (collect_tool_calls calls []) as [l'|] eqn:E; [|done].
  intros [= <-]. exists calls. split_and!; [done..|].
  apply collect_tool_calls_Return in E.
  eapply Forall2_impl; [exact E|]. intros ???. by apply carries_make_tool_call.
Qed.

Lemma result_of_RStr (reply : ChatCompletionMessage) (s : string) :
  result_of reply = Return (RStr s) →
  opt_list_truthy (reply_tool_calls reply) = false ∧
  s = default "" (reply_content reply).
Proof.
  unfold result_of.
  destruct (opt_list_truthy _) eqn:Ht.
  - by destruct (collect_tool_calls _ _).
  - intros [= <-]. by rewrite or_empty_default.
Qed.

Lemma result_of_Raise (reply : ChatCompletionMessage) (e : exception) :
  result_of reply = Raise e →
  ∃ calls c, reply_tool_calls reply = Some calls ∧ c ∈ calls ∧
    ¬ decodable c ∧
    (e = JSONDecodeError (fn_arguments (call_function c)) ∨
     e = ValidationError "ToolCall").
Proof.
  unfold result_of.
  destruct (opt_list_truthy _) eqn:Ht; [|done].
  apply opt_list_truthy_true in Ht as (calls & Hc & Hne).
  rewrite Hc. simpl.
  destruct (collect_tool_calls calls []) as [l'|e'] eqn:E; [done|].
  intros [= <-]. apply collect_tool_calls_Raise in E as (c & Hin & Hr).
  exists calls, c. split_and!; [done..| |].
  - by eapply make_tool_call_Raise_not_decodable.
  - apply make_tool_call_Raise in Hr as [[_ ->]|[_ ->]]; [by left | by right].
Qed.

Lemma run_tools_cons (tc : ToolCall) (calls : list ToolCall) (self : t)
    (w : World) :
  run_tools (tc :: calls) self w =
  match _run_tool tc self w with
  | (Return _, self', w') => run_tools calls self' w'
  | (Raise e, self', w') => (Raise e, self', w')
  end.
Proof.
  unfold run_tools. simpl. unfold bind at 1.
  unfold mbind, M_bind, bind at 1. unfold mret, M_ret, ret.
  by destruct (_run_tool tc self w) as [[[?|?] ?] ?].
Qed.

(** All the tool calls run, or the first that is refused stops the loop. *)
Lemma run_tools_spec (calls : list ToolCall) (self : t) (w : World) :
  ∃ outs,
    (run_tools calls self w).1.2 = extend outs self ∧
    match (run_tools calls self w).1.1 with
    | Return _ => Forall runnable calls ∧ outputs calls outs
    | Raise e =>
        ∃ tc, tc ∈ calls ∧ ¬ runnable tc ∧
          (e = ValueError ("Unsupported tool: " +:+ tc_function_name tc) ∨
           e = ValueError "query argument is required for search tool.")
    end.
Proof.
  revert self w.
  induction calls as [|tc calls IH]; intros self w.
  - exists []. rewrite extend_nil. split; [done|]. split; constructor.
  - rewrite run_tools_cons, run_tool_unfold. case_bool_decide as Hn.
    + destruct (tc_arguments tc !! "query") as [kw|] eqn:Hq; simpl.
      * match goal with
        | |- context [run_tools calls ?s ?v] =>
            destruct (IH s v) as (outs & Hs & Ho);
            destruct (run_tools calls s v) as [[o self'] w'] eqn:E
        end.
        simpl in *. eexists (_ :: outs). split.
        { rewrite Hs, append_extend, extend_extend. done. }
        destruct o as [[]|e].
        -- destruct Ho as [Hr Ho]. split.
           ++ constructor; [|done]. split; [done | by eexists].
           ++ constructor; [by eexists | done].
        -- destruct Ho as (tc' & ? & ? & ?). exists tc'.
           split_and!; [by right | done..].
      * exists []. rewrite extend_nil. split; [done|].
        exists tc. split_and!; [by left | | by right].
        intros [_ [? ?]]. congruence.
    + simpl. exists []. rewrite extend_nil. split; [done|].
      exists tc. split_and!; [by left | | by left]. by intros [? _].
Qed.
End AgentLoop.

Section AgentRun.
Context `{Env}.
Import SimpleAgent.

Lemma run_body_START (l : locals) (self : t) (w : World) :
  _state self = START →
  run_body l self w =
  match input "ユーザ: " w with
  | (Some line, w') =>
      (Return {| user_query := Some line; response := response l |},
       set_state LLM_CALL self, w')
  | (None, w') => (Raise KeyboardInterrupt, self, w')
  end.
Proof.
  intros Hs. unfold run_body. run_monad. rewrite Hs.
  by destruct (input _ w) as [[line|] w'].
Qed.

Lemma run_body_LLM_CALL (l : locals) (self : t) (w : World) :
  _state self = LLM_CALL →
  run_body l self w =
  match _get_response (user_query l) self w with
  | (Return r, self', w') =>
      (Return {| user_query := None; response := Some r |},
       match r with
       | RStr _ => set_state END self'
       | RList _ => set_state TOOL_RUN self'
       | RNone => self'
       end, w')
  | (Raise e, self', w') => (Raise e, self', w')
  end.
Proof.
  intros Hs. unfold run_body.
  unfold mbind at 1. unfold M_bind, bind at 1. unfold get at 1. rewrite Hs.
  unfold mbind at 1. unfold M_bind, bind at 1.
  destruct (_get_response (user_query l) self w) as [[[r|e] self'] w']; [|done].
  by destruct r.
Qed.

Lemma run_body_TOOL_RUN (l : locals) (self : t) (w : World) :
  _state self = TOOL_RUN →
  run_body l self w =
  match response l with
  | None => (Raise (UnboundLocalError "response"), self, w)
  | Some (RList calls) =>
      match run_tools calls self w with
      | (Return _, self', w') => (Return l, set_state LLM_CALL self', w')
      | (Raise e, self', w') => (Raise e, self', w')
      end
  | Some _ =>
      (Raise (ValueError "response must be a list of ToolCall."), self, w)
  end.
Proof.
  intros Hs. unfold run_body.
  unfold mbind at 1. unfold M_bind, bind at 1. unfold get at 1. rewrite Hs.
  by destruct (response l) as [[s|calls|]|].
Qed.

Lemma run_body_END (l : locals) (self : t) (w : World) :
  _state self = END →
  run_body l self w =
  match response l with
  | None => (Raise (UnboundLocalError "response"), self, w)
  | Some (RStr s) =>
      (Return l, set_state START self, print ("アシスタント: " +:+ s) w)
  | Some _ => (Raise (ValueError "response must be a string."), self, w)
  end.
Proof.
  intros Hs. unfold run_body. run_monad. rewrite Hs.
  by destruct (response l) as [[s|calls|]|].
Qed.

(** An iteration only appends to the history, whether it ends or raises,
    and does not touch the system message. *)
Lemma run_body_extend (l : locals) (self : t) (w : World) :
  ∃ ms s, (run_body l self w).1.2 = set_state s (extend ms self).
Proof.
  destruct (_state self) eqn:Hs.
  - rewrite run_body_START by done.
    destruct (input _ w) as [[line|] w']; simpl.
    + exists [], LLM_CALL. by rewrite extend_nil.
    + exists [], START. rewrite extend_nil. destruct self; simpl in *. by subst.
  - rewrite run_body_LLM_CALL, get_response_extend by done. simpl.
    destruct (result_of _) as [[s|calls|]|e]; simpl; by eexists _, _.
  - rewrite run_body_TOOL_RUN by done.
    destruct (response l) as [[s|calls|]|]; simpl;
      try (exists [], TOOL_RUN; rewrite extend_nil; destruct self; simpl in *;
           by subst).
    destruct (run_tools_spec calls self w) as (outs & Ho & _).
    destruct (run_tools calls self w) as [[[[]|e] self'] w']; simpl in *; subst.
    + by exists outs, LLM_CALL.
    + exists outs, TOOL_RUN. unfold set_state, extend. simpl. by rewrite Hs.
  - rewrite run_body_END by done.
    destruct (response l) as [[s|calls|]|]; simpl;
      try (exists [], END; rewrite extend_nil; destruct self; simpl in *;
           by subst).
    exists [], START. by rewrite extend_nil.
Qed.

End AgentRun.

(** ** The agent: the state machine of [run] *)

Section AgentMachine.
Context `{Env}.
Import SimpleAgent.

(** What an iteration that came to its end did, state by state. *)
Lemma step_inv (c c' : config) :
  step c c' →
  match _state (agent c) with
  | START =>
      ∃ line,
        input "ユーザ: " (world c) = (Some line, world c') ∧
        vars c' = {| user_query := Some line; response := response (vars c) |} ∧
        agent c' = set_state LLM_CALL (agent c)
  | LLM_CALL =>
      ∃ reply r,
        asked reply ∧ result_of reply = Return r ∧
        vars c' = {| user_query := None; response := Some r |} ∧
        agent c' =
          set_state (match r with RStr _ => END | _ => TOOL_RUN end)
            (extend (user_part (user_query (vars c)) ++ [message_to_add reply])
               (agent c))
  | TOOL_RUN =>
      ∃ calls outs,
        response (vars c) = Some (RList calls) ∧
        Forall runnable calls ∧ outputs calls outs ∧
        vars c' = vars c ∧
        agent c' = set_state LLM_CALL (extend outs (agent c))
  | END =>
      ∃ s,
        response (vars c) = Some (RStr s) ∧
        vars c' = vars c ∧
        agent c' = set_state START (agent c) ∧
        world c' = print ("アシスタント: " +:+ s) (world c)
  end.
Proof.
  unfold step. destruct c as [l self w], c' as [l' self' w']. simpl.
  destruct (_state self) eqn:Hs.
  - rewrite run_body_START by done.
    destruct (input _ w) as [[line|] w1]; [|done].
    intros [= <- <- <-]. by exists line.
  - rewrite run_body_LLM_CALL, get_response_extend by done. simpl.
    destruct (result_of _) as [r|e] eqn:E; [|done].
    intros [= <- <- <-]. eexists _, r. split_and!; [by eexists _, _ | done..|].
    destruct r; try done. by apply result_of_not_None in E.
  - rewrite run_body_TOOL_RUN by done.
    destruct (response l) as [[s|calls|]|]; try done.
    destruct (run_tools_spec calls self w) as (outs & Ho & Hr).
    destruct (run_tools calls self w) as [[[[]|e] self1] w1]; [|done].
    simpl in *. destruct Hr as [Hr Hout]. intros [= <- <- <-].
    exists calls, outs. by rewrite Ho.
  - rewrite run_body_END by done.
    destruct (response l) as [[s|calls|]|]; try done.
    intros [= <- <- <-]. by exists s.
Qed.

(** An iteration that raises leaves the state where it was. *)
Lemma run_body_Raise_state (l : locals) (self : t) (w : World) (e : exception) :
  (run_body l self w).1.1 = Raise e →
  _state (run_body l self w).1.2 = _state self.
Proof.
  destruct (_state self) eqn:Hs.
  - rewrite run_body_START by done. by destruct (input _ w) as [[line|] w1].
  - rewrite run_body_LLM_CALL, get_response_extend by done. simpl.
    by destruct (result_of _) as [r|e'].
  - rewrite run_body_TOOL_RUN by done.
    destruct (response l) as [[s|calls|]|]; try done.
    destruct (run_tools_spec calls self w) as (outs & Ho & _).
    destruct (run_tools calls self w) as [[[[]|e'] self1] w1]; [done|].
    simpl in *. by subst.
  - rewrite run_body_END by done. by destruct (response l) as [[s|calls|]|].
Qed.

Lemma run_tools_runnable (calls : list ToolCall) (self : t) (w : World) :
  Forall runnable calls → (run_tools calls self w).1.1 = Return ().
Proof.
  intros Hr. destruct (run_tools_spec calls self w) as (outs & _ & Ho).
  destruct ((run_tools calls self w).1.1) as [[]|e]; [done|].
  destruct Ho as (tc & Hin & Hn & _). rewrite Forall_forall in Hr.
  destruct Hn. by apply Hr.
Qed.

(** C1, as amended: the state of the agent is one of the four states
    [START], [LLM_CALL], [TOOL_RUN], [END], and an iteration of the loop of
    [run] that comes to its end goes from [START] to [LLM_CALL] with the
    line read from the user; from [LLM_CALL] to [END] when the response is
    a [str] and to [TOOL_RUN] when it is a list of tool calls; from
    [TOOL_RUN], having run the tools and appended their outputs to the
    history, back to [LLM_CALL], where the model is asked again; from
    [END], having printed the reply, to [START].  An iteration that raises
    leaves the state as it was, so there is no other transition; and in
    each state the iteration does come to its end when the line is read,
    the reply can be turned into a response, the tool calls are search
    calls with a query, and the response is the [str] to print. *)
Theorem C1_state_machine :
  (∀ s : State, s ∈ [START; LLM_CALL; TOOL_RUN; END]) ∧
  NoDup [START; LLM_CALL; TOOL_RUN; END] ∧
  (∀ c c', step c c' →
     match _state (agent c) with
     | START =>
         _state (agent c') = LLM_CALL ∧
         ∃ line, (input "ユーザ: " (world c)).1 = Some line ∧
                 user_query (vars c') = Some line ∧
                 _message_history (agent c') = _message_history (agent c)
     | LLM_CALL =>
         (_state (agent c') = END ∧ ∃ s, response (vars c') = Some (RStr s)) ∨
         (_state (agent c') = TOOL_RUN ∧
          ∃ calls, response (vars c') = Some (RList calls))
     | TOOL_RUN =>
         _state (agent c') = LLM_CALL ∧
         ∃ calls outs,
           response (vars c) = Some (RList calls) ∧ outputs calls outs ∧
           _message_history (agent c') = _message_history (agent c) ++ outs
     | END =>
         _state (agent c') = START ∧
         ∃ s, response (vars c) = Some (RStr s) ∧
              world c' = print ("アシスタント: " +:+ s) (world c) ∧
              _message_history (agent c') = _message_history (agent c)
     end) ∧
  (∀ l self w e,
     (run_body l self w).1.1 = Raise e →
     _state (run_body l self w).1.2 = _state self) ∧
  (∀ c line w',
     _state (agent c) = START →
     input "ユーザ: " (world c) = (Some line, w') → ∃ c', step c c') ∧
  (∀ c r,
     _state (agent c) = LLM_CALL →
     result_of
       (chat_completions_create "gpt-4o-mini"
          (request (user_query (vars c)) (agent c)) ["search"] (world c)).1
     = Return r →
     ∃ c', step c c') ∧
  (∀ c calls,
     _state (agent c) = TOOL_RUN →
     response (vars c) = Some (RList calls) → Forall runnable calls →
     ∃ c', step c c') ∧
  (∀ c s,
     _state (agent c) = END → response (vars c) = Some (RStr s) →
     ∃ c', step c c').
Proof.
  split_and!.
  - intros []; compute_done.
  - compute_done.
  - intros c c' Hstep. apply step_inv in Hstep.
    destruct (_state (agent c)).
    + destruct Hstep as (line & Hi & Hv & ->). split; [done|].
      exists line. rewrite Hi, Hv. done.
    + destruct Hstep as (reply & r & _ & Hr & -> & ->).
      destruct r as [s|calls|]; simpl.
      * left. split; [done | by eexists].
      * right. split; [done | by eexists].
      * by apply result_of_not_None in Hr.
    + destruct Hstep as (calls & outs & Hc & _ & Ho & _ & ->).
      split; [done|]. by exists calls, outs.
    + destruct Hstep as (s & Hr & _ & -> & ->). split; [done|]. by exists s.
  - apply run_body_Raise_state.
  - intros [l self w] line w' Hs Hi. simpl in *.
    eexists (Config _ _ _). unfold step. simpl.
    rewrite run_body_START, Hi by done. reflexivity.
  - intros [l self w] r Hs Hr. simpl in *.
    eexists (Config _ _ _). unfold step. simpl.
    rewrite run_body_LLM_CALL, get_response_extend by done. simpl.
    rewrite Hr. reflexivity.
  - intros [l self w] calls Hs Hr Hrun. simpl in *.
    pose proof (run_tools_runnable calls self w Hrun) as Ht.
    destruct (run_tools calls self w) as [[o self1] w1] eqn:E. simpl in Ht.
    exists (Config l (set_state LLM_CALL self1) w1). unfold step. simpl.
    rewrite run_body_TOOL_RUN, Hr, E, Ht by done. reflexivity.
  - intros [l self w] s Hs Hr. simpl in *.
    eexists (Config _ _ _). unfold step. simpl.
    rewrite run_body_END, Hr by done. reflexivity.
Qed.

Lemma response_fits_step (c c' : config) : step c c' → response_fits c'.
Proof.
  intros Hstep. apply step_inv in Hstep. unfold response_fits.
  destruct (_state (agent c)).
  - destruct Hstep as (line & _ & _ & ->). done.
  - destruct Hstep as (reply & r & _ & Hr & -> & ->).
    destruct r as [s|calls|]; [| |by apply result_of_not_None in Hr];
      simpl; (split; [intros ?|intros ?]); try done; by eexists.
  - destruct Hstep as (calls & outs & _ & _ & _ & _ & ->). done.
  - destruct Hstep as (s & _ & _ & -> & _). done.
Qed.

Lemma reachable_response_fits (c : config) : reachable c → response_fits c.
Proof.
  induction 1 as [system_prompt w|c c' _ _ Hstep].
  - by split.
  - by eapply response_fits_step.
Qed.

(** C9: in every configuration the loop of [run] reaches, the state
    [TOOL_RUN] comes with a response that is a list of [ToolCall]s and the
    state [END] with a response that is a [str]; so neither of the two
    [ValueError] guards of those branches fires in the iteration that
    starts there. *)
Theorem C9_guards_never_fire (c : config) :
  reachable c →
  (_state (agent c) = TOOL_RUN →
     ∃ calls, response (vars c) = Some (RList calls)) ∧
  (_state (agent c) = END → ∃ s, response (vars c) = Some (RStr s)) ∧
  (run_body (vars c) (agent c) (world c)).1.1
    ≠ Raise (ValueError "response must be a list of ToolCall.") ∧
  (run_body (vars c) (agent c) (world c)).1.1
    ≠ Raise (ValueError "response must be a string.").
Proof.
  intros Hr. destruct (reachable_response_fits c Hr) as [Ht He].
  split; [done|]. split; [done|].
  destruct c as [l self w]. simpl in *.
  destruct (_state self) eqn:Hs.
  - rewrite run_body_START by done.
    by destruct (input _ w) as [[line|] w1].
  - rewrite run_body_LLM_CALL, get_response_extend by done. simpl.
    destruct (result_of _) as [r|e] eqn:E; [done|]. simpl.
    apply result_of_Raise in E as (cs & c & _ & _ & _ & [->| ->]); done.
  - rewrite run_body_TOOL_RUN by done.
    destruct Ht as [calls ->]; [done|].
    destruct (run_tools_spec calls self w) as (outs & _ & Ho).
    destruct (run_tools calls self w) as [[[[]|e] self1] w1]; [done|].
    simpl in *. destruct Ho as (tc & _ & _ & [->| ->]); split; simpl;
      by intros [=].
  - rewrite run_body_END by done. destruct He as [s ->]; done.
Qed.
End AgentMachine.

(** ** The history only grows *)

Section History.
Context `{Env}.

Lemma chatbot_get_response_prefix (q : string) (self : SimpleChatbot.t)
    (w : World) :
  SimpleChatbot._message_history self `prefix_of`
  SimpleChatbot._message_history (SimpleChatbot._get_response q self w).1.2.
Proof. rewrite chatbot_get_response_unfold. simpl. by apply prefix_app_r. Qed.

Lemma chatbot_run_body_prefix (self : SimpleChatbot.t) (w : World) :
  SimpleChatbot._message_history self `prefix_of`
  SimpleChatbot._message_history (SimpleChatbot.run_body self w).1.2.
Proof.
  unfold SimpleChatbot.run_body.
  unfold mbind at 1. unfold M_bind, bind at 1. unfold call_input.
  destruct (input _ w) as [[line|] w1]; [|done].
  unfold mbind at 1. unfold M_bind, bind at 1.
  pose proof (chatbot_get_response_prefix line self w1) as Hp.
  by destruct (SimpleChatbot._get_response line self w1) as [[[r|e] self1] w2].
Qed.

Lemma chatbot_run_prefix (fuel : nat) (self : SimpleChatbot.t) (w : World) :
  SimpleChatbot._message_history self `prefix_of`
  SimpleChatbot._message_history (SimpleChatbot.run fuel self w).1.2.
Proof.
  revert self w. induction fuel as [|fuel IH]; intros self w; simpl; [done|].
  pose proof (chatbot_run_body_prefix self w) as Hp.
  destruct (SimpleChatbot.run_body self w) as [[[[]|e] self1] w1]; simpl in Hp.
  - by etrans.
  - by destruct e.
Qed.

Lemma agent_get_response_prefix (uq : option string) (self : SimpleAgent.t)
    (w : World) :
  SimpleAgent._message_history self `prefix_of`
  SimpleAgent._message_history (SimpleAgent._get_response uq self w).1.2.
Proof. rewrite get_response_extend. simpl. by apply prefix_app_r. Qed.

Lemma agent_run_tool_prefix (tc : ToolCall) (self : SimpleAgent.t) (w : World) :
  SimpleAgent._message_history self `prefix_of`
  SimpleAgent._message_history (SimpleAgent._run_tool tc self w).1.2.
Proof.
  rewrite run_tool_unfold. case_bool_decide; [|done].
  destruct (tc_arguments tc !! "query"); [|done]. simpl. by apply prefix_app_r.
Qed.

Lemma agent_run_body_prefix (l : SimpleAgent.locals) (self : SimpleAgent.t)
    (w : World) :
  SimpleAgent._message_history self `prefix_of`
  SimpleAgent._message_history (SimpleAgent.run_body l self w).1.2.
Proof.
  destruct (run_body_extend l self w) as (ms & s & ->). simpl.
  by apply prefix_app_r.
Qed.

Lemma agent_run_loop_prefix (fuel : nat) (l : SimpleAgent.locals)
    (self : SimpleAgent.t) (w : World) :
  SimpleAgent._message_history self `prefix_of`
  SimpleAgent._message_history (SimpleAgent.run_loop fuel l self w).1.2.
Proof.
  revert l self w. induction fuel as [|fuel IH]; intros l self w; simpl; [done|].
  pose proof (agent_run_body_prefix l self w) as Hp.
  destruct (SimpleAgent.run_body l self w) as [[[l1|e] self1] w1]; simpl in Hp.
  - by etrans.
  - by destruct e.
Qed.

(** C4: the message history of the chatbot and of the agent is one list
    that is only appended to.  Whatever [_get_response], [_run_tool] or
    [run] (for any number of iterations) does, whether it returns or
    raises, the history before it is a prefix of the history after it:
    no entry is deleted, changed or moved. *)
Theorem C4_history_append_only :
  (∀ q self w,
     SimpleChatbot._message_history self `prefix_of`
     SimpleChatbot._message_history (SimpleChatbot._get_response q self w).1.2) ∧
  (∀ fuel self w,
     SimpleChatbot._message_history self `prefix_of`
     SimpleChatbot._message_history (SimpleChatbot.run fuel self w).1.2) ∧
  (∀ uq self w,
     SimpleAgent._message_history self `prefix_of`
     SimpleAgent._message_history (SimpleAgent._get_response uq self w).1.2) ∧
  (∀ tc self w,
     SimpleAgent._message_history self `prefix_of`
     SimpleAgent._message_history (SimpleAgent._run_tool tc self w).1.2) ∧
  (∀ fuel self w,
     SimpleAgent._message_history self `prefix_of`
     SimpleAgent._message_history (SimpleAgent.run fuel self w).1.2).
Proof.
  split_and!.
  - apply chatbot_get_response_prefix.
  - apply chatbot_run_prefix.
  - apply agent_get_response_prefix.
  - apply agent_run_tool_prefix.
  - intros fuel self w. apply agent_run_loop_prefix.
Qed.
End History.

(** ** The agent: what a turn appends *)

Section Turn.
Context `{Env}.
Import SimpleAgent.

Lemma turn_messages_nil (final : ChatCompletionMessage) :
  turn_messages [] final = [message_to_add final].
Proof. done. Qed.

Lemma turn_messages_cons (reply : ChatCompletionMessage)
    (outs : list ChatCompletionMessageParam)
    (rounds : list (ChatCompletionMessage * list ChatCompletionMessageParam))
    (final : ChatCompletionMessage) :
  turn_messages ((reply, outs) :: rounds) final
  = message_to_add reply :: outs ++ turn_messages rounds final.
Proof.
  unfold turn_messages. rewrite bind_cons. unfold round_messages at 1.
  simpl. by rewrite <- app_assoc.
Qed.

Lemma answers_outputs (cs : list ChatCompletionMessageToolCall)
    (calls : list ToolCall) (outs : list ChatCompletionMessageParam) :
  Forall2 carries cs calls → outputs calls outs → answers cs outs.
Proof.
  unfold answers, outputs. intros Hc. revert outs.
  induction Hc as [|c tc cs calls (Hid & _) _ IH]; intros outs Ho.
  - inversion Ho. constructor.
  - inversion Ho as [|? m ? outs' [text ->] Ho']; subst.
    constructor; [exists text; by rewrite Hid | by apply IH].
Qed.

Lemma turn_tail (n : nat) (c c' : config) :
  turn n c c' →
  match _state (agent c) with
  | START => True
  | LLM_CALL =>
      ∃ rounds final,
        _message_history (agent c') =
          _message_history (agent c) ++ user_part (user_query (vars c))
            ++ turn_messages rounds final ∧
        Forall round_fits rounds ∧ final_fits final ∧
        n = 2 * length rounds + 2
  | TOOL_RUN =>
      user_query (vars c) = None →
      ∃ calls outs rounds final,
        response (vars c) = Some (RList calls) ∧ outputs calls outs ∧
        _message_history (agent c') =
          _message_history (agent c) ++ outs ++ turn_messages rounds final ∧
        Forall round_fits rounds ∧ final_fits final ∧
        n = 2 * length rounds + 3
  | END => _message_history (agent c') = _message_history (agent c) ∧ n = 1
  end.
Proof.
  induction 1 as [c c' Hstep Hstart|n c c1 c' Hstep Hmid Hturn IH].
  - apply step_inv in Hstep. destruct (_state (agent c)); [done| | |].
    + destruct Hstep as (reply & r & _ & _ & _ & Ha). rewrite Ha in Hstart.
      by destruct r.
    + destruct Hstep as (calls & outs & _ & _ & _ & _ & Ha).
      by rewrite Ha in Hstart.
    + destruct Hstep as (s & _ & _ & Ha & _). by rewrite Ha.
  - apply step_inv in Hstep. destruct (_state (agent c)); [done| | |].
    + destruct Hstep as (reply & r & Hasked & Hr & Hv & Ha).
      rewrite Ha, Hv in IH. rewrite Ha in Hmid.
      destruct r as [s|calls|]; simpl in IH.
      * destruct IH as [Hh ->]. exists [], reply. rewrite Hh. simpl.
        split_and!; [done | constructor | | done].
        split; [done|]. by apply result_of_RStr in Hr as [? _].
      * destruct IH as (calls' & outs & rounds & final & [= <-] & Ho & Hh
                          & Hrs & Hf & ->); [done|].
        apply result_of_RList in Hr as (cs & Hcs & Hne & Hcar).
        exists ((reply, outs) :: rounds), final. rewrite Hh.
        split_and!.
        -- rewrite turn_messages_cons. simpl. by rewrite <- ?app_assoc.
        -- constructor; [|done]. split; [done|]. exists cs.
           split_and!; [done..|]. by eapply answers_outputs.
        -- done.
        -- simpl. lia.
      * by apply result_of_not_None in Hr.
    + destruct Hstep as (calls & outs & Hr & _ & Ho & Hv & Ha).
      intros Hq. rewrite Ha, Hv, Hq in IH. simpl in IH.
      destruct IH as (rounds & final & Hh & Hrs & Hf & ->).
      exists calls, outs, rounds, final. rewrite Hh.
      split_and!; [done..| by rewrite <- ?app_assoc | done | done | lia].
    + destruct Hstep as (s & _ & _ & Ha & _). by rewrite Ha in Hmid.
Qed.

Lemma answers_tool (calls : list ChatCompletionMessageToolCall)
    (outs : list ChatCompletionMessageParam) :
  answers calls outs → Forall (λ m, role m = "tool") outs.
Proof.
  induction 1 as [|c m calls outs [text ->] _ IH]; constructor; done.
Qed.

Lemma filter_assistant_tool (outs : list ChatCompletionMessageParam) :
  Forall (λ m, role m = "tool") outs →
  filter (λ m, role m = "assistant") outs = [].
Proof.
  induction 1 as [|m outs Hm _ IH]; [done|].
  rewrite filter_cons_False; [done|]. rewrite Hm. done.
Qed.

Lemma turn_messages_roles
    (rounds : list (ChatCompletionMessage * list ChatCompletionMessageParam))
    (final : ChatCompletionMessage) :
  Forall round_fits rounds →
  Forall (λ m, role m = "assistant" ∨ role m = "tool")
    (turn_messages rounds final) ∧
  length (filter (λ m, role m = "assistant") (turn_messages rounds final))
  = Datatypes.S (length rounds).
Proof.
  induction 1 as [|[reply outs] rounds (_ & calls & _ & _ & Ha) _ [IH1 IH2]].
  - rewrite turn_messages_nil. split; [by repeat constructor | done].
  - apply answers_tool in Ha. simpl in Ha.
    rewrite turn_messages_cons. split.
    + constructor; [by left|].
      apply Forall_app. split; [|done].
      eapply Forall_impl; [exact Ha|]. intros m ?. by right.
    + rewrite filter_cons_True by done.
      rewrite filter_app, filter_assistant_tool by done.
      simpl. by rewrite IH2.
Qed.

(** C5, as amended: a completed turn of [run], from the state [START] back
    to the state [START], appends to the history the user message for the
    line that was typed, if that line is not empty, and no user message if
    it is empty; then, for every reply of the model, one assistant message,
    each reply that asks for tools being followed by one tool message for
    each of its tool calls, in their order, before the model is asked
    again.  After the first message the turn appends no user message: the
    model is asked again with [user_query = None]. *)
Theorem C5_turn_history (n : nat) (c c' : config) :
  _state (agent c) = START →
  turn n c c' →
  ∃ line rounds final,
    (input "ユーザ: " (world c)).1 = Some line ∧
    _message_history (agent c') =
      _message_history (agent c)
        ++ (if str_truthy line then [user_message line] else [])
        ++ turn_messages rounds final ∧
    Forall round_fits rounds ∧ final_fits final ∧
    Forall (λ m, role m = "assistant" ∨ role m = "tool")
      (turn_messages rounds final) ∧
    length (filter (λ m, role m = "assistant") (turn_messages rounds final))
      = Datatypes.S (length rounds) ∧
    n = 2 * length rounds + 3.
Proof.
  intros Hs Hturn.
  inversion Hturn as [? ? Hstep Hend|n' ? c1 ? Hstep Hmid Htail]; subst.
  - apply step_inv in Hstep. rewrite Hs in Hstep.
    destruct Hstep as (line & _ & _ & Ha). by rewrite Ha in Hend.
  - apply step_inv in Hstep. rewrite Hs in Hstep.
    destruct Hstep as (line & Hi & Hv & Ha).
    apply turn_tail in Htail. rewrite Ha, Hv in Htail. simpl in Htail.
    destruct Htail as (rounds & final & Hh & Hrs & Hf & ->).
    destruct (turn_messages_roles rounds final Hrs) as [Hroles Hcount].
    exists line, rounds, final. rewrite Hi.
    split_and!; [done..|lia].
Qed.
End Turn.

(** ** The executable loop and the relations on configurations *)

Section Adequacy.
Context `{Env}.
Import SimpleAgent.

Lemma config_after_step (c c' : config) :
  config_after 1 c = Some c' ↔ step c c'.
Proof.
  unfold config_after, step. destruct c as [l self w], c' as [l' self' w'].
  simpl. destruct (run_body l self w) as [[[l1|e] self1] w1]; simpl.
  - split; intros [= -> -> ->]; done.
  - split; [by destruct e | done].
Qed.

Lemma config_after_S (fuel : nat) (c : config) :
  config_after (Datatypes.S fuel) c = config_after 1 c ≫= config_after fuel.
Proof.
  unfold config_after. destruct c as [l self w]. simpl.
  destruct (run_body l self w) as [[[l1|e] self1] w1]; simpl; [done|].
  by destruct e.
Qed.

Lemma config_after_reachable (fuel : nat) (c c' : config) :
  reachable c → config_after fuel c = Some c' → reachable c'.
Proof.
  revert c. induction fuel as [|fuel IH]; intros c Hr.
  - unfold config_after. destruct c. simpl. by intros [= <-].
  - rewrite config_after_S.
    destruct (config_after 1 c) as [c1|] eqn:E; [|done]. simpl.
    apply config_after_step in E. apply IH. by eapply reachable_step.
Qed.

Lemma run_turn_sound (n : nat) (c c' : config) :
  run_turn n (vars c) (agent c) (world c) = Some c' → turn n c c'.
Proof.
  revert c. induction n as [|n IH]; intros [l self w]; simpl; [done|].
  destruct (run_body l self w) as [[[l1|e] self1] w1] eqn:E; [|done].
  case_decide as Hs.
  - destruct n; [|done]. intros [= <-]. by apply turn_last.
  - intros Ht. eapply (turn_next _ _ (Config l1 self1 w1)); [done..|].
    by apply IH.
Qed.
End Adequacy.

(** ** The scripted sessions, run *)

Section Examples.
#[local] Existing Instance Script.script_env.

Example decode_object :
  json_loads (Script.object1 "query" "rocq")
  = Some (JObject {[ "query" := JString "rocq" ]}).
Proof. vm_compute. reflexivity. Qed.

Example decode_broken : json_loads "{" = None ∧ json_loads "" = None.
Proof. split; reflexivity. Qed.

(** Two hits are two blocks of three lines with an empty line between. *)
Example join_two_hits :
  SimpleAgent.join_results
    [{| title := "A"; href := "http://a"; body := "a." |};
     {| title := "B"; href := "http://b"; body := "b." |}]
  = "Title: A" +:+ LF +:+ "URL: http://a" +:+ LF +:+ "Body: a." +:+ LF
      +:+ LF
      +:+ "Title: B" +:+ LF +:+ "URL: http://b" +:+ LF +:+ "Body: b.".
Proof. reflexivity. Qed.

Example join_no_hits : SimpleAgent.join_results [] = "".
Proof. reflexivity. Qed.

(** The chatbot sends the system message and then the whole history, the
    new user message last. *)
Example chatbot_requests :
  Script.requests
    (SimpleChatbot.run 3 (SimpleChatbot.__init__ "system")
       (Script.start_world ["hello"; "bye"]
          [Script.text_reply "hi"; Script.text_reply "see you"] [])).2
  = [[system_message "system"; user_message "hello"];
     [system_message "system"; user_message "hello";
      {| role := "assistant"; content := Some "hi";
         tool_calls := None; tool_call_id := None |};
      user_message "bye"]].
Proof. reflexivity. Qed.

(** The session with a search, to its end: the user asks, the model asks
    for a search, the search is run, the model answers, and Ctrl-C at the
    next prompt ends [run]. *)
Example agent_session :
  let after := SimpleAgent.run 6 (SimpleAgent.__init__ "system") Demo.session in
  after.1.1 = SimpleAgent.Returned ∧
  SimpleAgent._state after.1.2 = START ∧
  SimpleAgent._message_history after.1.2
  = [user_message "news?";
     {| role := "assistant"; content := None;
        tool_calls :=
          Some [{| param_id := "call_1"; param_type := "function";
                   param_function :=
                     {| param_name := "search";
                        param_arguments := Script.object1 "query" "rocq" |} |}];
        tool_call_id := None |};
     tool_message "call_1"
       ("Title: Rocq 9.3" +:+ LF +:+ "URL: https://rocq-prover.org" +:+ LF
          +:+ "Body: Released.");
     {| role := "assistant"; content := Some "Rocq 9.3 is out.";
        tool_calls := None; tool_call_id := None |}] ∧
  Script.stdout after.2
  = ["ユーザ: "; "ツール呼び出し: search({'query': 'rocq'})";
     "アシスタント: Rocq 9.3 is out."; "ユーザ: "] ∧
  length (Script.requests after.2) = 2 ∧
  Script.searches after.2 = [JString "rocq"].
Proof. vm_compute. split_and!; reflexivity. Qed.
End Examples.

(** ** The claims on the scripted sessions *)

Section Sessions.
#[local] Existing Instance Script.script_env.

(** The chatbot, asked "hello" and answered "hi". *)
Lemma C3_chatbot_get_response_witness :
  let self := SimpleChatbot.__init__ "system" in
  let w := Script.start_world [] [Script.text_reply "hi"] [] in
  let w' :=
    (chat_completions_create "gpt-4o-mini"
       [system_message "system"; user_message "hello"] [] w).2 in
  chat_completions_create "gpt-4o-mini"
    (SimpleChatbot._system_message self
       :: SimpleChatbot._message_history self ++ [user_message "hello"]) [] w
  = (Script.text_reply "hi", w') ∧
  ∃ self',
    SimpleChatbot._get_response "hello" self w
    = (Return (Some "hi"), self', w') ∧
    SimpleChatbot._system_message self' = system_message "system" ∧
    SimpleChatbot._message_history self' =
      [user_message "hello";
       {| role := "assistant"; content := Some "hi";
          tool_calls := None; tool_call_id := None |}].
Proof.
  split; [reflexivity|].
  apply (@C3_chatbot_get_response Script.script_env "hello" (SimpleChatbot.__init__ "system")
           (Script.start_world [] [Script.text_reply "hi"] []) _
           (Script.text_reply "hi")).
  reflexivity.
Defined.

(** The chatbot, asked "hello" and answered with an empty content: no
    assistant message is appended, against C3 as it was stated. *)
Lemma C3_counterexample :
  let after :=
    SimpleChatbot._get_response "hello" (SimpleChatbot.__init__ "system")
      (Script.start_world [] [Script.text_reply ""] []) in
  after.1.1 = Return (Some "") ∧
  SimpleChatbot._message_history after.1.2 = [user_message "hello"] ∧
  ¬ ∃ m, m ∈ SimpleChatbot._message_history after.1.2 ∧ role m = "assistant".
Proof.
  split; [reflexivity|]. split; [reflexivity|].
  intros (m & Hm & Hr). vm_compute in Hm.
  apply list_elem_of_singleton in Hm. subst m. discriminate Hr.
Qed.

(** The chatbot, asked "hello" and answered without content. *)
Lemma C10_chatbot_empty_reply_witness :
  let self := SimpleChatbot.__init__ "system" in
  let reply := {| reply_content := None; reply_tool_calls := None |} in
  let w := Script.start_world [] [reply] [] in
  let w' :=
    (chat_completions_create "gpt-4o-mini"
       [system_message "system"; user_message "hello"] [] w).2 in
  chat_completions_create "gpt-4o-mini"
    (SimpleChatbot._system_message self
       :: SimpleChatbot._message_history self ++ [user_message "hello"]) [] w
  = (reply, w') ∧
  (reply_content reply = None ∨ reply_content reply = Some "") ∧
  ∃ self',
    SimpleChatbot._get_response "hello" self w = (Return None, self', w') ∧
    SimpleChatbot._message_history self' = [user_message "hello"] ∧
    last (SimpleChatbot._message_history self') = Some (user_message "hello").
Proof.
  split; [reflexivity|]. split; [by left|].
  apply (@C10_chatbot_empty_reply Script.script_env "hello" (SimpleChatbot.__init__ "system")
           (Script.start_world []
              [{| reply_content := None; reply_tool_calls := None |}] []) _
           {| reply_content := None; reply_tool_calls := None |}).
  - reflexivity.
  - by left.
Defined.

Import SimpleAgent.

(** In the session with a search, the iteration that starts in [TOOL_RUN]
    ends in [LLM_CALL], not in [START] as C1 was stated. *)
Lemma C1_counterexample :
  ∃ c c',
    config_after 2 (Demo.fresh Demo.session) = Some c ∧
    step c c' ∧
    _state (agent c) = TOOL_RUN ∧
    response (vars c) = Some (RList [Demo.search_tool_call]) ∧
    _message_history (agent c') =
      _message_history (agent c)
        ++ [tool_message "call_1" (join_results [Demo.hit])] ∧
    _state (agent c') = LLM_CALL ∧
    _state (agent c') ≠ START.
Proof.
  eexists _, _. split; [vm_compute; reflexivity|].
  split; [apply config_after_step; vm_compute; reflexivity|].
  vm_compute. split_and!; done.
Qed.

(** A turn that starts with an empty line: it is completed in three
    iterations and appends the assistant message only, no user message,
    against C5 as it was stated. *)
Lemma C5_counterexample :
  ∃ c',
    (input "ユーザ: " Demo.empty_line).1 = Some "" ∧
    turn 3 (Demo.fresh Demo.empty_line) c' ∧
    _message_history (agent (Demo.fresh Demo.empty_line)) = [] ∧
    _message_history (agent c') =
      [{| role := "assistant"; content := Some "hi";
          tool_calls := None; tool_call_id := None |}] ∧
    ¬ ∃ m, m ∈ _message_history (agent c') ∧ role m = "user".
Proof.
  eexists. split; [reflexivity|].
  split; [apply run_turn_sound; vm_compute; reflexivity|].
  split; [reflexivity|]. split; [reflexivity|].
  intros (m & Hm & Hr). vm_compute in Hm.
  apply list_elem_of_singleton in Hm. subst m. discriminate Hr.
Qed.

(** The turn of the session with a search: five iterations. *)
Lemma C5_turn_history_witness :
  ∃ c',
    _state (agent (Demo.fresh Demo.session)) = START ∧
    turn 5 (Demo.fresh Demo.session) c' ∧
    ∃ line rounds final,
      (input "ユーザ: " (world (Demo.fresh Demo.session))).1 = Some line ∧
      _message_history (agent c') =
        _message_history (agent (Demo.fresh Demo.session))
          ++ (if str_truthy line then [user_message line] else [])
          ++ turn_messages rounds final ∧
      Forall round_fits rounds ∧ final_fits final ∧
      Forall (λ m, role m = "assistant" ∨ role m = "tool")
        (turn_messages rounds final) ∧
      length (filter (λ m, role m = "assistant") (turn_messages rounds final))
        = Datatypes.S (length rounds) ∧
      5 = 2 * length rounds + 3.
Proof.
  assert (∃ c', turn 5 (Demo.fresh Demo.session) c') as [c' Ht].
  { eexists. apply run_turn_sound. vm_compute. reflexivity. }
  exists c'. split; [reflexivity|]. split; [exact Ht|].
  apply (@C5_turn_history Script.script_env 5 (Demo.fresh Demo.session) c' eq_refl Ht).
Defined.

(** A reply with a tool call whose arguments are not JSON: the assistant
    message is appended and [JSONDecodeError] is raised; no list is
    returned, against C6 as it was stated. *)
Lemma C6_counterexample :
  let w := Demo.broken_arguments "{" in
  let self := __init__ "system" in
  (chat_completions_create "gpt-4o-mini" (request (Some "news?") self)
     ["search"] w).1
  = Script.tool_reply [Script.search_call "call_1" "{"] ∧
  (_get_response (Some "news?") self w).1.1 = Raise (JSONDecodeError "{") ∧
  ¬ ∃ l, (_get_response (Some "news?") self w).1.1 = Return (RList l).
Proof.
  split; [reflexivity|]. split; [reflexivity|]. by intros [l Hl].
Qed.

(** The reply that asks for a search with well-formed arguments. *)
Lemma C6_get_response_tool_calls_witness :
  let self := __init__ "system" in
  let w := Demo.session in
  let calls := [Script.search_call "call_1" (Script.object1 "query" "rocq")] in
  let w' :=
    (chat_completions_create "gpt-4o-mini" (request (Some "news?") self)
       ["search"] w).2 in
  chat_completions_create "gpt-4o-mini" (request (Some "news?") self)
    ["search"] w
  = (Demo.asks_search, w') ∧
  reply_tool_calls Demo.asks_search = Some calls ∧
  calls ≠ [] ∧
  Forall decodable calls ∧
  ∃ o self' m ps,
    _get_response (Some "news?") self w = (o, self', w') ∧
    _message_history self' =
      _message_history self ++ user_part (Some "news?") ++ [m] ∧
    role m = "assistant" ∧
    tool_calls m = Some ps ∧
    Forall2 records calls ps ∧
    (Forall decodable calls →
       ∃ l, o = Return (RList l) ∧ Forall2 carries calls l) ∧
    (∀ r, o = Return r → ∃ l, r = RList l ∧ Forall2 carries calls l).
Proof.
  split; [reflexivity|]. split; [reflexivity|]. split; [done|].
  split.
  { repeat constructor. eexists. vm_compute. reflexivity. }
  apply (@C6_get_response_tool_calls Script.script_env (Some "news?") (__init__ "system")
           Demo.session _ Demo.asks_search
           [Script.search_call "call_1" (Script.object1 "query" "rocq")]).
  - reflexivity.
  - reflexivity.
  - done.
Defined.

(** The search tool call of the session, run on a fresh agent. *)
Lemma C7_run_tool_search_witness :
  let self := __init__ "system" in
  let w := Demo.session in
  let tc := Demo.search_tool_call in
  let w' :=
    (ddgs_text (JString "rocq") "jp-jp"
       (print "ツール呼び出し: search({'query': 'rocq'})" w)).2 in
  let text :=
    "Title: Rocq 9.3" +:+ LF +:+ "URL: https://rocq-prover.org" +:+ LF
      +:+ "Body: Released." in
  tc_function_name tc = "search" ∧
  tc_arguments tc !! "query" = Some (JString "rocq") ∧
  ddgs_text (JString "rocq") "jp-jp"
    (print ("ツール呼び出し: " +:+ tc_function_name tc +:+ "("
              +:+ dict_str (tc_arguments tc) +:+ ")") w)
  = ([Demo.hit], w') ∧
  ∃ self',
    _run_tool tc self w = (Return text, self', w') ∧
    _message_history self' =
      _message_history self ++
        [{| role := "tool"; content := Some text; tool_calls := None;
            tool_call_id := Some (tc_id tc) |}] ∧
    _state self' = _state self ∧
    _system_message self' = _system_message self.
Proof.
  split; [reflexivity|]. split; [reflexivity|]. split; [reflexivity|].
  apply (@C7_run_tool_search Script.script_env Demo.search_tool_call (__init__ "system")
           Demo.session _ (JString "rocq") [Demo.hit]).
  - reflexivity.
  - reflexivity.
  - reflexivity.
Defined.


(** The configuration of the session with a search after two iterations:
    the state is [TOOL_RUN]. *)
Lemma C9_guards_never_fire_witness :
  ∃ c,
    config_after 2 (Demo.fresh Demo.session) = Some c ∧
    _state (agent c) = TOOL_RUN ∧
    reachable c ∧
    (_state (agent c) = TOOL_RUN →
       ∃ calls, response (vars c) = Some (RList calls)) ∧
    (_state (agent c) = END → ∃ s, response (vars c) = Some (RStr s)) ∧
    (run_body (vars c) (agent c) (world c)).1.1
      ≠ Raise (ValueError "response must be a list of ToolCall.") ∧
    (run_body (vars c) (agent c) (world c)).1.1
      ≠ Raise (ValueError "response must be a string.").
Proof.
  destruct (config_after 2 (Demo.fresh Demo.session)) as [c|] eqn:E;
    [|discriminate (E : _ = None)].
  assert (reachable c) as Hr.
  { eapply (config_after_reachable 2 (Demo.fresh Demo.session));
      [apply reachable_init | exact E]. }
  exists c. split; [done|]. split.
  { revert E. vm_compute. by intros [= <-]. }
  split; [exact Hr|]. exact (@C9_guards_never_fire Script.script_env c Hr).
Defined.
End Sessions.

(** * Further properties *)

(** ** The loop of the chatbot *)

Section ChatbotRun.
Context `{Env}.
Import SimpleChatbot.


End ChatbotRun.

Section ChatbotJournal.
Context (E : Env).
Import SimpleChatbot.

End ChatbotJournal.

(** ** The methods of the agent at their edges *)

Section AgentEdges.
Context `{Env}.
Import SimpleAgent.

Lemma collect_tool_calls_first_bad
    (good rest : list ChatCompletionMessageToolCall)
    (bad : ChatCompletionMessageToolCall) (e : exception) :
  Forall decodable good → make_tool_call bad = Raise e →
  collect_tool_calls (good ++ bad :: rest) [] = Raise e.
Proof.
  intros Hg Hb. induction Hg as [|c good Hc _ IH]; simpl.
  - by rewrite Hb.
  - apply decodable_make_tool_call in Hc as [tc ->].
    rewrite collect_tool_calls_acc, IH. done.
Qed.

(** X3: when the reply has tool calls and one of them has arguments that
    do not decode to a JSON object, the ones before it being fine,
    [_get_response] raises for that one: [JSONDecodeError] with the text of
    its arguments when they are not JSON, [ValidationError] when they are
    JSON but no object.  The assistant message recording all the tool calls
    of the reply, the bad one and those after it too, is in the history by
    then, and no tool message will answer it. *)
Theorem X3_get_response_bad_arguments (uq : option string) (self : t)
    (w w' : World) (reply : ChatCompletionMessage)
    (good rest : list ChatCompletionMessageToolCall)
    (bad : ChatCompletionMessageToolCall) :
  chat_completions_create "gpt-4o-mini" (request uq self) ["search"] w
  = (reply, w') →
  reply_tool_calls reply = Some (good ++ bad :: rest) →
  Forall decodable good →
  ¬ decodable bad →
  ∃ e self',
    _get_response uq self w = (Raise e, self', w') ∧
    e = match json_loads (fn_arguments (call_function bad)) with
        | None => JSONDecodeError (fn_arguments (call_function bad))
        | Some _ => ValidationError "ToolCall"
        end ∧
    _state self' = _state self ∧
    ∃ m, _message_history self' = _message_history self ++ user_part uq ++ [m] ∧
         role m = "assistant" ∧
         tool_calls m = Some (tool_call_param <$> good ++ bad :: rest).
Proof.
  intros Hr Hc Hg Hb. rewrite get_response_extend, Hr. simpl.
  assert (∃ e, make_tool_call bad = Raise e ∧
               e = match json_loads (fn_arguments (call_function bad)) with
                   | None => JSONDecodeError (fn_arguments (call_function bad))
                   | Some _ => ValidationError "ToolCall"
                   end) as (e & He & Hee).
  { destruct (make_tool_call bad) as [tc|e] eqn:Hm.
    - destruct Hb. apply decodable_make_tool_call. by exists tc.
    - exists e. split; [done|].
      apply make_tool_call_Raise in Hm as [[-> ->]|[(v & -> & _) ->]]; done. }
  exists e, (extend (user_part uq ++ [message_to_add reply]) self).
  split_and!; [|exact Hee|done|].
  - unfold result_of. rewrite Hc.
    replace (opt_list_truthy (Some (good ++ bad :: rest))) with true
      by (by destruct good).
    simpl opt_list_items.
    by rewrite (collect_tool_calls_first_bad good rest bad e Hg He).
  - exists (message_to_add reply). split; [done|]. split; [done|].
    unfold message_to_add. simpl. rewrite Hc. by destruct good.
Qed.

(** X4: how [_get_response] sorts the replies.  A reply whose [tool_calls]
    is the empty list is taken as a text reply, like one without the key:
    the content comes back, and the assistant message has no tool calls.
    A reply that has both a text and tool calls (all decodable) comes back
    as the list only: its text goes into the history with the tool calls,
    and is not what is returned. *)
Theorem X4_get_response_sorts_replies (uq : option string) (self : t)
    (w w' : World) (reply : ChatCompletionMessage) :
  chat_completions_create "gpt-4o-mini" (request uq self) ["search"] w
  = (reply, w') →
  ∃ o self' m,
    _get_response uq self w = (o, self', w') ∧
    _message_history self' = _message_history self ++ user_part uq ++ [m] ∧
    (reply_tool_calls reply = Some [] ∨ reply_tool_calls reply = None →
       o = Return (RStr (default "" (reply_content reply))) ∧
       tool_calls m = None) ∧
    (∀ s calls,
       reply_content reply = Some s → s ≠ "" →
       reply_tool_calls reply = Some calls → calls ≠ [] →
       Forall decodable calls →
       (∃ l, o = Return (RList l) ∧ length l = length calls) ∧
       content m = Some s ∧
       tool_calls m = Some (tool_call_param <$> calls)).
Proof.
  intros Hr. rewrite get_response_extend, Hr. simpl.
  eexists _, _, (message_to_add reply). split; [done|]. split; [done|]. split.
  - intros Hc. unfold result_of, message_to_add. simpl.
    rewrite or_empty_default. by destruct Hc as [-> | ->].
  - intros s calls Hs Hne Hc Hcne Hd. split_and!.
    + unfold result_of. rewrite Hc.
      destruct calls as [|c calls]; [done|]. simpl opt_list_truthy. cbv iota.
      destruct (collect_decodable _ Hd) as (l & Hl & Hf).
      simpl opt_list_items. rewrite Hl. exists l. split; [done|].
      symmetry. by eapply Forall2_length.
    + unfold message_to_add. simpl. rewrite Hs. simpl.
      apply str_truthy_true in Hne. by rewrite Hne.
    + unfold message_to_add. simpl. rewrite Hc. by destruct calls.
Qed.

(** X5: where the agent and the chatbot agree.  For a non-empty query and
    a reply with a non-empty text and no tool calls, given to both for the
    same history, [SimpleAgent._get_response] and
    [SimpleChatbot._get_response] send the same messages, return the same
    text (the agent as a [str], the chatbot as the content) and leave the
    same history. *)
Theorem X5_agent_agrees_with_chatbot (q s : string) (self : t)
    (bot : SimpleChatbot.t) (w w' wb wb' : World)
    (reply : ChatCompletionMessage) :
  q ≠ "" →
  reply_content reply = Some s → s ≠ "" →
  opt_list_truthy (reply_tool_calls reply) = false →
  SimpleChatbot._system_message bot = _system_message self →
  SimpleChatbot._message_history bot = _message_history self →
  chat_completions_create "gpt-4o-mini" (request (Some q) self) ["search"] w
  = (reply, w') →
  chat_completions_create "gpt-4o-mini" (SimpleChatbot.request q bot) [] wb
  = (reply, wb') →
  SimpleChatbot.request q bot = request (Some q) self ∧
  ∃ self' bot',
    _get_response (Some q) self w = (Return (RStr s), self', w') ∧
    SimpleChatbot._get_response q bot wb = (Return (Some s), bot', wb') ∧
    SimpleChatbot._message_history bot' = _message_history self' ∧
    _message_history self' =
      _message_history self ++
        [user_message q;
         {| role := "assistant"; content := Some s;
            tool_calls := None; tool_call_id := None |}].
Proof.
  intros Hq Hs Hsne Ht Hsys Hh Hr Hrb.
  apply str_truthy_true in Hq. apply str_truthy_true in Hsne.
  assert (SimpleChatbot.request q bot = request (Some q) self) as Hreq.
  { unfold SimpleChatbot.request, request, user_part. by rewrite Hsys, Hh, Hq. }
  split; [done|].
  rewrite get_response_extend, Hr, chatbot_get_response_unfold, Hrb. simpl.
  unfold result_of, message_to_add.
  rewrite Ht, or_empty_default, Hs, Hq, Hh. simpl. rewrite Hsne.
  eexists _, _. split_and!; done.
Qed.

Lemma run_tools_app_good (good rest : list ToolCall) (self : t) (w : World) :
  Forall runnable good →
  ∃ outs w1,
    outputs good outs ∧
    run_tools (good ++ rest) self w = run_tools rest (extend outs self) w1.
Proof.
  intros Hg. revert self w.
  induction Hg as [|tc good [Hn [kw Hq]] _ IH]; intros self w.
  - exists [], w. rewrite extend_nil. split; [constructor | done].
  - simpl. rewrite run_tools_cons, run_tool_unfold.
    rewrite bool_decide_eq_true_2, Hq by done. simpl.
    match goal with
    | |- context [run_tools (good ++ rest) ?s ?v] =>
        destruct (IH s v) as (outs & w1 & Ho & ->)
    end.
    eexists (_ :: outs), w1. rewrite append_extend, extend_extend.
    split; [|done]. constructor; [by eexists | done].
Qed.

(** X6: a refused tool call does not undo the ones before it.  When the
    tool calls of a response are run and one of them is refused, the ones
    before it having been accepted, [ValueError] is raised for that one,
    [Unsupported tool: ] with its name when it does not name the search
    tool (whether it has a query or not) and the message about the missing
    query otherwise; the tool messages of the calls before it stay in the
    history, one for each, and the calls after it are not run. *)
Theorem X6_run_tools_refusal (good rest : list ToolCall) (bad : ToolCall)
    (self : t) (w : World) :
  Forall runnable good →
  ¬ runnable bad →
  ∃ outs w',
    run_tools (good ++ bad :: rest) self w
    = (Raise (ValueError
                (if bool_decide (tc_function_name bad = "search")
                 then "query argument is required for search tool."
                 else "Unsupported tool: " +:+ tc_function_name bad)),
       extend outs self, w') ∧
    outputs good outs.
Proof.
  intros Hg Hb.
  destruct (run_tools_app_good good (bad :: rest) self w Hg)
    as (outs & w1 & Ho & ->).
  exists outs, w1. split; [|done].
  rewrite run_tools_cons, run_tool_unfold. case_bool_decide as Hn; [|done].
  destruct (tc_arguments bad !! "query") as [kw|] eqn:Hq; [|done].
  destruct Hb. split; [done | by eexists].
Qed.
End AgentEdges.

(** ** What the loop of the agent keeps *)

Section AgentInvariants.
Context `{Env}.
Import SimpleAgent.

(** The tool messages that are appended answer the tool calls in their
    order, as far as the loop over them got. *)
Lemma run_tools_added (calls : list ToolCall) (self : t) (w : World) :
  ∃ outs,
    (run_tools calls self w).1.2 = extend outs self ∧
    outputs (take (length outs) calls) outs.
Proof.
  revert self w. induction calls as [|tc calls IH]; intros self w.
  - exists []. rewrite extend_nil. split; [done | constructor].
  - rewrite run_tools_cons, run_tool_unfold. case_bool_decide as Hn.
    + destruct (tc_arguments tc !! "query") as [kw|] eqn:Hq; simpl.
      * match goal with
        | |- context [run_tools calls ?s ?v] =>
            destruct (IH s v) as (outs & Hs & Ho);
            destruct (run_tools calls s v) as [[o self'] w'] eqn:E
        end.
        simpl in *. eexists (_ :: outs). split.
        { rewrite Hs, append_extend, extend_extend. done. }
        simpl. constructor; [by eexists | done].
      * exists []. rewrite extend_nil. split; [done | constructor].
    + simpl. exists []. rewrite extend_nil. split; [done | constructor].
Qed.

Lemma agent_message_user_part (uq : option string) :
  Forall agent_message (user_part uq).
Proof.
  destruct uq as [q|]; simpl; [|constructor].
  destruct (str_truthy q) eqn:E; constructor; [|constructor].
  left. split; [done|]. split; [|done].
  exists q. split; [done|]. by apply str_truthy_true.
Qed.

Lemma agent_message_message_to_add (reply : ChatCompletionMessage) :
  agent_message (message_to_add reply).
Proof.
  right. left. unfold message_to_add. simpl. split_and!; [done| | |done].
  - destruct (reply_content reply) as [s|]; simpl; [|done].
    destruct (str_truthy s) eqn:E; [|done].
    apply str_truthy_true in E. by intros [= ->].
  - by destruct (reply_tool_calls reply) as [[|c cs]|].
Qed.

Lemma agent_message_outputs (calls : list ToolCall)
    (outs : list ChatCompletionMessageParam) :
  outputs calls outs → Forall agent_message outs.
Proof.
  induction 1 as [|tc m calls outs [text ->] _ IH]; constructor; [|done].
  right. right. split_and!; [done | by eexists | done | by eexists].
Qed.

(** What one iteration appends, whether it ends or raises. *)
Lemma run_body_added (l : locals) (self : t) (w : World) :
  ∃ ms s,
    (run_body l self w).1.2 = set_state s (extend ms self) ∧
    Forall agent_message ms.
Proof.
  destruct (_state self) eqn:Hs.
  - rewrite run_body_START by done.
    destruct (input _ w) as [[line|] w']; simpl.
    + exists [], LLM_CALL. by rewrite extend_nil.
    + exists [], START. rewrite extend_nil. split; [|done].
      destruct self; simpl in *. by subst.
  - rewrite run_body_LLM_CALL, get_response_extend by done. simpl.
    assert (Forall agent_message
              (user_part (user_query l) ++
               [message_to_add
                  (chat_completions_create "gpt-4o-mini"
                     (request (user_query l) self) ["search"] w).1])) as Hf.
    { apply Forall_app. split; [apply agent_message_user_part|].
      constructor; [apply agent_message_message_to_add | constructor]. }
    destruct (result_of _) as [[s|calls|]|e]; simpl; by eexists _, _.
  - rewrite run_body_TOOL_RUN by done.
    destruct (response l) as [[s|calls|]|]; simpl;
      try (exists [], TOOL_RUN; rewrite extend_nil; split; [|done];
           destruct self; simpl in *; by subst).
    destruct (run_tools_added calls self w) as (outs & Ho & Hf).
    apply agent_message_outputs in Hf.
    destruct (run_tools calls self w) as [[[[]|e] self'] w']; simpl in *; subst.
    + by exists outs, LLM_CALL.
    + exists outs, TOOL_RUN. split; [|done].
      unfold set_state, extend. simpl. by rewrite Hs.
  - rewrite run_body_END by done.
    destruct (response l) as [[s|calls|]|]; simpl;
      try (exists [], END; rewrite extend_nil; split; [|done];
           destruct self; simpl in *; by subst).
    exists [], START. by rewrite extend_nil.
Qed.

(** X7: whatever [run] of the agent does, for any number of iterations and
    whether it is still going, has returned or has raised, it leaves the
    system message as it was and appends only messages of three kinds: user
    messages with a non-empty content, assistant messages (whose content,
    if there, is not empty and whose tool calls, if there, are not the
    empty list), and tool messages with a content and the id they answer.
    No system message ever enters the history. *)
Theorem X7_agent_run_messages (fuel : nat) (l : locals) (self : t)
    (w : World) :
  _system_message (run_loop fuel l self w).1.2 = _system_message self ∧
  ∃ added,
    _message_history (run_loop fuel l self w).1.2
    = _message_history self ++ added ∧
    Forall agent_message added ∧
    Forall (λ m, role m ≠ "system") added.
Proof.
  assert (∀ ms, Forall agent_message ms → Forall (λ m, role m ≠ "system") ms)
    as Hsys.
  { intros ms Hms. eapply Forall_impl; [exact Hms|].
    intros m [(-> & _)|[(-> & _)|(-> & _)]]; done. }
  revert l self w. induction fuel as [|fuel IH]; intros l self w; simpl.
  - split; [done|]. exists []. rewrite app_nil_r.
    split_and!; [done | constructor | constructor].
  - destruct (run_body_added l self w) as (ms & s & Hb & Hf).
    destruct (run_body l self w) as [[[l1|e] self1] w1]; simpl in Hb; subst.
    + destruct (IH l1 (set_state s (extend ms self)) w1)
        as (Hs & added & Hh & Ha & _).
      split; [by rewrite Hs|]. exists (ms ++ added). rewrite Hh. simpl.
      rewrite <- app_assoc. split; [done|].
      assert (Forall agent_message (ms ++ added)) by by apply Forall_app.
      split; [done | by apply Hsys].
    + assert (_system_message (set_state s (extend ms self))
              = _system_message self ∧
              ∃ added,
                _message_history (set_state s (extend ms self))
                = _message_history self ++ added ∧
                Forall agent_message added ∧
                Forall (λ m, role m ≠ "system") added) as Hgoal.
      { split; [done|]. exists ms. split_and!; [done | done | by apply Hsys]. }
      by destruct e.
Qed.

Lemma answered_app_other (h ms : list ChatCompletionMessageParam) :
  answered h → Forall (λ m, role m ≠ "tool") ms → answered (h ++ ms).
Proof.
  intros Hh Hms i m Hi Hr.
  destruct (decide (i < length h)) as [Hlt|Hge].
  - rewrite lookup_app_l in Hi by done.
    destruct (Hh i m Hi Hr) as (j & a & ps & p & Hj & Ha & Hrest).
    exists j, a, ps, p. split; [done|]. split; [|done].
    rewrite lookup_app_l by lia. done.
  - rewrite lookup_app_r in Hi by lia.
    apply list_elem_of_lookup_2 in Hi.
    rewrite Forall_forall in Hms. by destruct (Hms m Hi).
Qed.

Lemma answered_app_outputs (h : list ChatCompletionMessageParam)
    (a : ChatCompletionMessageParam) (ps : list ToolCallParam)
    (calls : list ToolCall) (outs : list ChatCompletionMessageParam) :
  answered (h ++ [a]) → role a = "assistant" → tool_calls a = Some ps →
  Forall (λ tc, ∃ p, p ∈ ps ∧ param_id p = tc_id tc) calls →
  outputs calls outs →
  answered ((h ++ [a]) ++ outs).
Proof.
  intros Hh Hra Hps Hids Ho i m Hi Hr.
  destruct (decide (i < length (h ++ [a]))) as [Hlt|Hge].
  - rewrite lookup_app_l in Hi by done.
    destruct (Hh i m Hi Hr) as (j & a' & ps' & p & Hj & Ha & Hrest).
    exists j, a', ps', p. split; [done|]. split; [|done].
    rewrite lookup_app_l by lia. done.
  - rewrite lookup_app_r in Hi by lia.
    unfold outputs in Ho.
    destruct (Forall2_lookup_r _ _ _ _ _ Ho Hi) as (tc & Htc & text & ->).
    apply list_elem_of_lookup_2 in Htc.
    rewrite Forall_forall in Hids. destruct (Hids tc Htc) as (p & Hp & Hid).
    exists (length h), a, ps, p. rewrite length_app in Hge. simpl in Hge.
    split_and!; [lia | | done | done | done | simpl; by rewrite Hid].
    rewrite lookup_app_l by (rewrite length_app; simpl; lia).
    by rewrite list_lookup_middle.
Qed.

(** What goes with [answered] through the iterations: in [TOOL_RUN] the
    last entry of the history is the assistant message whose tool calls
    the response holds. *)
Lemma answered_step (c c' : config) :
  step c c' →
  answered (_message_history (agent c)) ∧
  (_state (agent c) = TOOL_RUN →
     ∃ h a ps calls,
       _message_history (agent c) = h ++ [a] ∧ role a = "assistant" ∧
       tool_calls a = Some ps ∧ response (vars c) = Some (RList calls) ∧
       Forall (λ tc, ∃ p, p ∈ ps ∧ param_id p = tc_id tc) calls) →
  answered (_message_history (agent c')) ∧
  (_state (agent c') = TOOL_RUN →
     ∃ h a ps calls,
       _message_history (agent c') = h ++ [a] ∧ role a = "assistant" ∧
       tool_calls a = Some ps ∧ response (vars c') = Some (RList calls) ∧
       Forall (λ tc, ∃ p, p ∈ ps ∧ param_id p = tc_id tc) calls).
Proof.
  intros Hstep [Ha Ht]. apply step_inv in Hstep.
  destruct (_state (agent c)) eqn:Hs.
  - destruct Hstep as (line & _ & _ & ->). simpl. done.
  - destruct Hstep as (reply & r & _ & Hr & -> & ->).
    assert (answered
              (_message_history (agent c) ++
               user_part (user_query (vars c)) ++ [message_to_add reply]))
      as Ha'.
    { apply answered_app_other; [done|]. apply Forall_app. split.
      - destruct (user_query (vars c)) as [q|]; simpl; [|constructor].
        destruct (str_truthy q); by repeat constructor.
      - by repeat constructor. }
    destruct r as [s|calls|]; [| |by apply result_of_not_None in Hr];
      simpl; (split; [done|]); [done|].
    intros _. apply result_of_RList in Hr as (cs & Hcs & Hne & Hcar).
    exists (_message_history (agent c) ++ user_part (user_query (vars c))),
      (message_to_add reply), (tool_call_param <$> cs), calls.
    split_and!; [by rewrite <- app_assoc | done | | done |].
    + unfold message_to_add. simpl. rewrite Hcs. by destruct cs.
    + clear -Hcar. induction Hcar as [|c0 tc cs calls (Hid & _) _ IH];
        constructor.
      * exists (tool_call_param c0). split; [by left | by rewrite Hid].
      * eapply Forall_impl; [exact IH|]. intros tc' (p & Hp & Hpid).
        exists p. split; [by right | done].
  - destruct Hstep as (calls & outs & Hr & _ & Ho & _ & ->). simpl.
    split; [|done].
    destruct Ht as (h & a & ps & calls' & Hh & Hra & Hps & Hr' & Hids); [done|].
    rewrite Hr in Hr'. injection Hr' as <-. rewrite Hh in Ha |- *.
    by eapply answered_app_outputs.
  - destruct Hstep as (s & _ & _ & -> & _). simpl. done.
Qed.

(** X8: in every configuration the loop of [run] reaches on a freshly built
    agent, every tool message of the history answers a tool call that an
    assistant message standing before it records: its [tool_call_id] is the
    id of one of that message's tool calls. *)
Theorem X8_tool_messages_answer_calls (c : config) :
  reachable c → answered (_message_history (agent c)).
Proof.
  intros Hr.
  enough (answered (_message_history (agent c)) ∧
          (_state (agent c) = TOOL_RUN →
             ∃ h a ps calls,
               _message_history (agent c) = h ++ [a] ∧ role a = "assistant" ∧
               tool_calls a = Some ps ∧
               response (vars c) = Some (RList calls) ∧
               Forall (λ tc, ∃ p, p ∈ ps ∧ param_id p = tc_id tc) calls))
    as [? _] by done.
  induction Hr as [system_prompt w|c c' _ IH Hstep].
  - split; [|done]. intros i m Hi. simpl in Hi. by destruct i.
  - by eapply answered_step.
Qed.

(** How the loop can end, from a configuration where the response fits the
    state. *)
Lemma run_loop_exit (fuel : nat) (c : config) :
  response_fits c →
  match run_loop fuel (vars c) (agent c) (world c) with
  | (Running _, _, _) => True
  | (Returned, self', _) => _state self' = START
  | (Raised e, self', _) => agent_failure e self'
  end.
Proof.
  revert c. induction fuel as [|fuel IH]; intros [l self w] Hfit; simpl; [done|].
  destruct (run_body l self w) as [[[l1|e] self1] w1] eqn:E.
  - apply (IH (Config l1 self1 w1)).
    by apply (response_fits_step (Config l self w)).
  - destruct Hfit as [Ht He]. simpl in *.
    destruct (_state self) eqn:Hs.
    + rewrite run_body_START in E by done.
      destruct (input _ w) as [[line|] w']; [done|].
      injection E as <- <- <-. done.
    + rewrite run_body_LLM_CALL, get_response_extend in E by done.
      simpl in E. destruct (result_of _) as [r|e'] eqn:Er; [done|].
      injection E as <- <- <-.
      apply result_of_Raise in Er as (cs & c0 & _ & _ & _ & [->| ->]);
        left; (split; [done|]); [left; by eexists | by right].
    + rewrite run_body_TOOL_RUN in E by done.
      destruct Ht as [calls Hr]; [done|]. rewrite Hr in E.
      destruct (run_tools_spec calls self w) as (outs & Ho & Hsp).
      destruct (run_tools calls self w) as [[[[]|e'] self'] w']; [done|].
      simpl in *. injection E as <- <- <-. subst self'.
      destruct Hsp as (tc & _ & _ & [->| ->]);
        right; (split; [done|]); [left; by eexists | by right].
    + rewrite run_body_END in E by done.
      destruct He as [s Hr]; [done|]. by rewrite Hr in E.
Qed.


(** X10: an agent on which [run] ended with the [ValueError] of a refused
    tool call cannot be run again: its state is still [TOOL_RUN] while the
    local variable [response] of the new call is not bound, so [run]
    raises [UnboundLocalError] in its first iteration, and the agent and
    the world are not touched. *)
Theorem X10_agent_run_again (fuel fuel' : nat) (system_prompt msg : string)
    (self' : t) (w w' w2 : World) :
  run fuel (__init__ system_prompt) w = (Raised (ValueError msg), self', w') →
  _state self' = TOOL_RUN ∧
  run (Datatypes.S fuel') self' w2
  = (Raised (UnboundLocalError "response"), self', w2).
Proof.
  intros Hrun. unfold run in Hrun.
  pose proof (run_loop_exit fuel
                (Config {| user_query := None; response := None |}
                   (__init__ system_prompt) w)) as Hx.
  simpl in Hx. rewrite Hrun in Hx.
  assert (_state self' = TOOL_RUN) as Hs.
  { destruct Hx as [(_ & [[doc ?]|?])|(? & _)]; done. }
  split; [done|]. unfold run. simpl.
  rewrite run_body_TOOL_RUN by done. done.
Qed.
End AgentInvariants.

(** ** What a turn of the agent shows *)

Section TurnOutput.
Context `{Env}.
Import SimpleAgent.

Lemma turn_prints (n : nat) (c c' : config) :
  turn n c c' →
  match _state (agent c) with
  | START => True
  | LLM_CALL | TOOL_RUN =>
      ∃ final w,
        final_fits final ∧
        last (_message_history (agent c')) = Some (message_to_add final) ∧
        world c'
        = print ("アシスタント: " +:+ default "" (reply_content final)) w
  | END =>
      ∃ s, response (vars c) = Some (RStr s) ∧
           _message_history (agent c') = _message_history (agent c) ∧
           world c' = print ("アシスタント: " +:+ s) (world c)
  end.
Proof.
  induction 1 as [c c' Hstep Hstart|n c c1 c' Hstep Hmid Hturn IH].
  - apply step_inv in Hstep. destruct (_state (agent c)); [done| | |].
    + destruct Hstep as (reply & r & _ & _ & _ & Ha). rewrite Ha in Hstart.
      by destruct r.
    + destruct Hstep as (calls & outs & _ & _ & _ & _ & Ha).
      by rewrite Ha in Hstart.
    + destruct Hstep as (s & Hr & _ & Ha & Hw). exists s. by rewrite Ha.
  - apply step_inv in Hstep. destruct (_state (agent c)); [done| | |].
    + destruct Hstep as (reply & r & Hasked & Hr & Hv & Ha).
      rewrite Ha, Hv in IH.
      destruct r as [s|calls|]; [| |by apply result_of_not_None in Hr];
        simpl in IH; [|done].
      destruct IH as (s' & [= <-] & Hh & Hw).
      apply result_of_RStr in Hr as [Ht ->].
      exists reply, (world c1). split; [by split|]. split; [|done].
      rewrite Hh, app_assoc. apply last_snoc.
    + destruct Hstep as (calls & outs & _ & _ & _ & _ & Ha).
      rewrite Ha in IH. simpl in IH. done.
    + destruct Hstep as (s & _ & _ & Ha & _). by rewrite Ha in Hmid.
Qed.

(** X11: a completed turn of the agent ends by printing the reply that the
    history ends with: the last entry of the history is the assistant
    message of a reply of the model without tool calls, and the last thing
    done to the world is to print ["アシスタント: "] followed by the content
    of that reply, or by nothing when the reply has no content. *)
Theorem X11_turn_prints_last_reply (n : nat) (c c' : config) :
  _state (agent c) = START →
  turn n c c' →
  ∃ final w,
    asked final ∧
    opt_list_truthy (reply_tool_calls final) = false ∧
    last (_message_history (agent c')) = Some (message_to_add final) ∧
    world c' = print ("アシスタント: " +:+ default "" (reply_content final)) w.
Proof.
  intros Hs Hturn.
  inversion Hturn as [? ? Hstep Hend|n' ? c1 ? Hstep Hmid Htail]; subst.
  - apply step_inv in Hstep. rewrite Hs in Hstep.
    destruct Hstep as (line & _ & _ & Ha). by rewrite Ha in Hend.
  - apply step_inv in Hstep. rewrite Hs in Hstep.
    destruct Hstep as (line & _ & _ & Ha).
    apply turn_prints in Htail. rewrite Ha in Htail. simpl in Htail.
    destruct Htail as (final & w & [Hasked Hf] & Hl & Hw).
    by exists final, w.
Qed.
End TurnOutput.


(** ** What the agent asks of the model and of the search *)

Section AgentJournal.
Context (E : Env).
Import SimpleAgent.









End AgentJournal.

(** ** The further properties on the scripted sessions *)

Section MoreSessions.
#[local] Existing Instance Script.script_env.
Import SimpleAgent.

(** Two tool calls, the arguments of the second cut short. *)
Lemma X3_get_response_bad_arguments_witness :
  let self := __init__ "system" in
  let w := Script.start_world [] [Cases.second_call_broken] [] in
  let good := [Script.search_call "call_1" (Script.object1 "query" "rocq")] in
  let bad := Script.search_call "call_2" "{" in
  let w' :=
    (chat_completions_create "gpt-4o-mini" (request (Some "news?") self)
       ["search"] w).2 in
  chat_completions_create "gpt-4o-mini" (request (Some "news?") self)
    ["search"] w
  = (Cases.second_call_broken, w') ∧
  reply_tool_calls Cases.second_call_broken = Some (good ++ bad :: []) ∧
  Forall decodable good ∧
  ¬ decodable bad ∧
  ∃ e self',
    _get_response (Some "news?") self w = (Raise e, self', w') ∧
    e = match json_loads (fn_arguments (call_function bad)) with
        | None => JSONDecodeError (fn_arguments (call_function bad))
        | Some _ => ValidationError "ToolCall"
        end ∧
    _state self' = _state self ∧
    ∃ m, _message_history self'
         = _message_history self ++ user_part (Some "news?") ++ [m] ∧
         role m = "assistant" ∧
         tool_calls m = Some (tool_call_param <$> good ++ bad :: []).
Proof.
  assert (Forall decodable
            [Script.search_call "call_1" (Script.object1 "query" "rocq")])
    as Hg.
  { repeat constructor. eexists. vm_compute. reflexivity. }
  assert (¬ decodable (Script.search_call "call_2" "{")) as Hb.
  { intros [d Hd]. vm_compute in Hd. discriminate Hd. }
  split; [reflexivity|]. split; [reflexivity|]. split; [exact Hg|].
  split; [exact Hb|].
  apply (@X3_get_response_bad_arguments Script.script_env (Some "news?")
           (__init__ "system")
           (Script.start_world [] [Cases.second_call_broken] []) _
           Cases.second_call_broken
           [Script.search_call "call_1" (Script.object1 "query" "rocq")] []
           (Script.search_call "call_2" "{")).
  - reflexivity.
  - reflexivity.
  - exact Hg.
  - exact Hb.
Defined.

(** A reply with a text and a tool call. *)
Lemma X4_get_response_sorts_replies_witness :
  let self := __init__ "system" in
  let w := Script.start_world [] [Cases.text_and_search] [] in
  let reply := Cases.text_and_search in
  let w' :=
    (chat_completions_create "gpt-4o-mini" (request (Some "news?") self)
       ["search"] w).2 in
  chat_completions_create "gpt-4o-mini" (request (Some "news?") self)
    ["search"] w
  = (reply, w') ∧
  ∃ o self' m,
    _get_response (Some "news?") self w = (o, self', w') ∧
    _message_history self'
    = _message_history self ++ user_part (Some "news?") ++ [m] ∧
    (reply_tool_calls reply = Some [] ∨ reply_tool_calls reply = None →
       o = Return (RStr (default "" (reply_content reply))) ∧
       tool_calls m = None) ∧
    (∀ s calls,
       reply_content reply = Some s → s ≠ "" →
       reply_tool_calls reply = Some calls → calls ≠ [] →
       Forall decodable calls →
       (∃ l, o = Return (RList l) ∧ length l = length calls) ∧
       content m = Some s ∧
       tool_calls m = Some (tool_call_param <$> calls)).
Proof.
  split; [reflexivity|].
  apply (@X4_get_response_sorts_replies Script.script_env (Some "news?")
           (__init__ "system")
           (Script.start_world [] [Cases.text_and_search] []) _
           Cases.text_and_search).
  reflexivity.
Defined.

(** The agent and the chatbot, both asked "hello" and answered "hi". *)
Lemma X5_agent_agrees_with_chatbot_witness :
  let self := __init__ "system" in
  let bot := SimpleChatbot.__init__ "system" in
  let w := Script.start_world [] [Script.text_reply "hi"] [] in
  let reply := Script.text_reply "hi" in
  let w' :=
    (chat_completions_create "gpt-4o-mini" (request (Some "hello") self)
       ["search"] w).2 in
  let wb' :=
    (chat_completions_create "gpt-4o-mini" (SimpleChatbot.request "hello" bot)
       [] w).2 in
  ("hello" ≠ "" ∧ reply_content reply = Some "hi" ∧ "hi" ≠ "" ∧
   opt_list_truthy (reply_tool_calls reply) = false) ∧
  (SimpleChatbot._system_message bot = _system_message self ∧
   SimpleChatbot._message_history bot = _message_history self) ∧
  (chat_completions_create "gpt-4o-mini" (request (Some "hello") self)
     ["search"] w = (reply, w') ∧
   chat_completions_create "gpt-4o-mini" (SimpleChatbot.request "hello" bot)
     [] w = (reply, wb')) ∧
  SimpleChatbot.request "hello" bot = request (Some "hello") self ∧
  ∃ self' bot',
    _get_response (Some "hello") self w = (Return (RStr "hi"), self', w') ∧
    SimpleChatbot._get_response "hello" bot w
    = (Return (Some "hi"), bot', wb') ∧
    SimpleChatbot._message_history bot' = _message_history self' ∧
    _message_history self' =
      _message_history self ++
        [user_message "hello";
         {| role := "assistant"; content := Some "hi";
            tool_calls := None; tool_call_id := None |}].
Proof.
  split; [split_and!; done|]. split; [split; reflexivity|].
  split; [split; reflexivity|].
  apply (@X5_agent_agrees_with_chatbot Script.script_env "hello" "hi"
           (__init__ "system") (SimpleChatbot.__init__ "system")
           (Script.start_world [] [Script.text_reply "hi"] []) _
           (Script.start_world [] [Script.text_reply "hi"] []) _
           (Script.text_reply "hi")); done.
Defined.

(** A search and then a call for a tool the agent does not have. *)
Lemma X6_run_tools_refusal_witness :
  let self := __init__ "system" in
  Forall runnable [Demo.search_tool_call] ∧
  ¬ runnable Cases.calculator_tool_call ∧
  ∃ outs w',
    run_tools ([Demo.search_tool_call] ++ Cases.calculator_tool_call :: [])
      self Demo.session
    = (Raise (ValueError
                (if bool_decide
                      (tc_function_name Cases.calculator_tool_call = "search")
                 then "query argument is required for search tool."
                 else "Unsupported tool: "
                        +:+ tc_function_name Cases.calculator_tool_call)),
       extend outs self, w') ∧
    outputs [Demo.search_tool_call] outs.
Proof.
  assert (Forall runnable [Demo.search_tool_call]) as Hg.
  { repeat constructor. eexists. vm_compute. reflexivity. }
  assert (¬ runnable Cases.calculator_tool_call) as Hb.
  { intros [Hn _]. discriminate Hn. }
  split; [exact Hg|]. split; [exact Hb|].
  exact (@X6_run_tools_refusal Script.script_env [Demo.search_tool_call] []
           Cases.calculator_tool_call (__init__ "system") Demo.session Hg Hb).
Defined.

(** The session with a search after three iterations: the tool message is
    in the history. *)
Lemma X8_tool_messages_answer_calls_witness :
  ∃ c,
    config_after 3 (Demo.fresh Demo.session) = Some c ∧
    last (_message_history (agent c))
    = Some (tool_message "call_1" (join_results [Demo.hit])) ∧
    reachable c ∧
    answered (_message_history (agent c)).
Proof.
  destruct (config_after 3 (Demo.fresh Demo.session)) as [c|] eqn:E;
    [|discriminate (E : _ = None)].
  assert (reachable c) as Hr.
  { eapply (config_after_reachable 3 (Demo.fresh Demo.session));
      [apply reachable_init | exact E]. }
  exists c. split; [done|]. split.
  { revert E. vm_compute. by intros [= <-]. }
  split; [exact Hr|].
  exact (@X8_tool_messages_answer_calls Script.script_env c Hr).
Defined.

(** The model asks for the calculator: [run] ends with [ValueError] in its
    third iteration, and a second [run] raises at once. *)
Lemma X10_agent_run_again_witness :
  let after := run 3 (__init__ "system") Cases.asks_calculator in
  run 3 (__init__ "system") Cases.asks_calculator
  = (Raised (ValueError "Unsupported tool: calculator"), after.1.2, after.2) ∧
  _state after.1.2 = TOOL_RUN ∧
  run 1 after.1.2 after.2
  = (Raised (UnboundLocalError "response"), after.1.2, after.2).
Proof.
  assert (run 3 (__init__ "system") Cases.asks_calculator
          = (Raised (ValueError "Unsupported tool: calculator"),
             (run 3 (__init__ "system") Cases.asks_calculator).1.2,
             (run 3 (__init__ "system") Cases.asks_calculator).2)) as Hrun.
  { vm_compute. reflexivity. }
  split; [exact Hrun|].
  exact (@X10_agent_run_again Script.script_env 3 0 "system"
           "Unsupported tool: calculator" _ Cases.asks_calculator _
           (run 3 (__init__ "system") Cases.asks_calculator).2 Hrun).
Defined.

(** The turn of the session with a search ends by printing the answer. *)
Lemma X11_turn_prints_last_reply_witness :
  ∃ c',
    _state (agent (Demo.fresh Demo.session)) = START ∧
    turn 5 (Demo.fresh Demo.session) c' ∧
    ∃ final w,
      asked final ∧
      opt_list_truthy (reply_tool_calls final) = false ∧
      last (_message_history (agent c')) = Some (message_to_add final) ∧
      world c'
      = print ("アシスタント: " +:+ default "" (reply_content final)) w.
Proof.
  assert (∃ c', turn 5 (Demo.fresh Demo.session) c') as [c' Ht].
  { eexists. apply run_turn_sound. vm_compute. reflexivity. }
  exists c'. split; [reflexivity|]. split; [exact Ht|].
  exact (@X11_turn_prints_last_reply Script.script_env 5
           (Demo.fresh Demo.session) c' eq_refl Ht).
Defined.

(** The session with a search in the journal: two requests for two
    assistant messages, one search for one tool message. *)
Example agent_session_journal :
  let after :=
    @run (Journal.env Script.script_env) 6 (__init__ "system")
      (Demo.session, Journal.empty) in
  after.1.1 = Returned ∧
  Journal.requests after.2.2
  = [("gpt-4o-mini", [system_message "system"; user_message "news?"],
      ["search"]);
     ("gpt-4o-mini",
      system_message "system" :: take 3 (_message_history after.1.2),
      ["search"])] ∧
  Journal.searches after.2.2 = [(JString "rocq", "jp-jp")] ∧
  length (_message_history after.1.2) = 4.
Proof. vm_compute. split_and!; reflexivity. Qed.
End MoreSessions.
